(** * SQL-GENERATOR: a shallow embedding of [main.py] and its properties

    The script turns the rows of a CSV/Excel table into SQL text and builds
    a few free-form statements from console input.  This file embeds the
    script function by function and proves the properties of its
    specification against that embedding.

    Conventions of the embedding.
    - A Python [str] is a [string]; each [ascii] is read as the Unicode code
      point of the same number, so the model covers text over the code
      points 0..255.  [Py.isspace], [Py.lower], [Py.int] and [Py.repr]
      follow CPython (3.11 or later) on that range.
    - Console input is a list of pending lines, console output a list of
      written chunks, the file system a set of directories and a finite map
      from paths to contents.
    - A Python exception is the [Raise] case of [result]. *)

From Stdlib Require Import ZArith NArith Ascii String List Lia Bool.
From stdpp Require Import base tactics option list strings pretty gmap.

Local Open Scope Z_scope.

(** ** Python built-ins used by the script *)

Module Py.

(** Code point of a character. *)
Definition ord (c : ascii) : N := N_of_ascii c.

(** [str.isspace] on one character: TAB..CR, FS..US, SPACE, NEL, NBSP. *)
Definition isspace (c : ascii) : bool :=
  let n := ord c in
  ((9 <=? n) && (n <=? 13) || (28 <=? n) && (n <=? 32)
   || (n =? 133) || (n =? 160))%N.

(** Upper-case letters below code point 256: A..Z and the Latin-1 capitals
    (U+00C0..U+00DE without the multiplication sign U+00D7). *)
Definition isupper (c : ascii) : bool :=
  let n := ord c in
  ((65 <=? n) && (n <=? 90)
   || (192 <=? n) && (n <=? 222) && negb (n =? 215))%N.

Definition lower_char (c : ascii) : ascii :=
  if isupper c then ascii_of_N (ord c + 32) else c.

(** [s.lower()] *)
Fixpoint lower (s : string) : string :=
  match s with
  | EmptyString => EmptyString
  | String c r => String (lower_char c) (lower r)
  end.

(** [s.lstrip()] *)
Fixpoint lstrip (s : string) : string :=
  match s with
  | EmptyString => EmptyString
  | String c r => if isspace c then lstrip r else s
  end.

(** [s.rstrip()] *)
Fixpoint rstrip (s : string) : string :=
  match s with
  | EmptyString => EmptyString
  | String c r =>
      match rstrip r with
      | EmptyString => if isspace c then EmptyString else String c EmptyString
      | r' => String c r'
      end
  end.

(** [s.strip()] *)
Definition strip (s : string) : string := lstrip (rstrip s).

(** [sep.join(l)] *)
Fixpoint join (sep : string) (l : list string) : string :=
  match l with
  | [] => EmptyString
  | [x] => x
  | x :: r => x +:+ sep +:+ join sep r
  end.

(** [s.split(sep)] for a one-character separator. *)
Fixpoint split (sep : ascii) (s : string) : list string :=
  match s with
  | EmptyString => [EmptyString]
  | String c r =>
      if decide (c = sep) then EmptyString :: split sep r
      else match split sep r with
           | h :: t => String c h :: t
           | [] => [String c EmptyString]
           end
  end.

(** [x in l] for a list of strings. *)
Definition contains (x : string) (l : list string) : bool :=
  bool_decide (x ∈ l).

(** Value of a decimal digit character. *)
Definition digit (c : ascii) : option Z :=
  let n := ord c in
  if ((48 <=? n) && (n <=? 57))%N then Some (Z.of_N n - 48) else None.

(** The digit part of an integer literal: digits, with single underscores
    allowed between two digits.  [seen] tells whether the previous
    character was a digit. *)
Fixpoint int_digits (acc : Z) (seen : bool) (s : string) : option Z :=
  match s with
  | EmptyString => if seen then Some acc else None
  | String c r =>
      if decide (c = "_"%char) then
        if seen then int_digits acc false r else None
      else
        match digit c with
        | Some d => int_digits (10 * acc + d) true r
        | None => None
        end
  end.

(** The white space [int()] skips around a numeral: the C white space
    TAB..CR and SPACE, and NEL and NBSP, which the conversion of a
    non-ASCII text turns into blanks.  Unlike [str.strip], the separators
    U+001C..U+001F stay where they are and make the text invalid. *)
Definition isspace_int (c : ascii) : bool :=
  let n := ord c in
  ((9 <=? n) && (n <=? 13) || (n =? 32) || (n =? 133) || (n =? 160))%N.

Fixpoint lstrip_int (s : string) : string :=
  match s with
  | EmptyString => EmptyString
  | String c r => if isspace_int c then lstrip_int r else s
  end.

Fixpoint rstrip_int (s : string) : string :=
  match s with
  | EmptyString => EmptyString
  | String c r =>
      match rstrip_int r with
      | EmptyString =>
          if isspace_int c then EmptyString else String c EmptyString
      | r' => String c r'
      end
  end.

(** The digits of a numeral, its underscores left out. *)
Fixpoint count_digits (s : string) : N :=
  match s with
  | EmptyString => 0
  | String c r =>
      ((if decide (c = "_"%char) then 0 else 1) + count_digits r)%N
  end.

(** [sys.get_int_max_str_digits()], which the script leaves at its
    default. *)
Definition max_str_digits : N := 4300.

(** A numeral without sign and white space: valid digits, and no more
    of them than the interpreter converts (leading zeros count). *)
Definition int_literal (t : string) : option Z :=
  match int_digits 0 false t with
  | Some z => if (count_digits t <=? max_str_digits)%N then Some z else None
  | None => None
  end.

(** [int(s)]: [None] stands for [ValueError].  Surrounding white space is
    dropped, one sign is allowed. *)
Definition int (s : string) : option Z :=
  match lstrip_int (rstrip_int s) with
  | String "-" r => Z.opp <$> int_literal r
  | String "+" r => int_literal r
  | t => int_literal t
  end.

(** Characters [repr] escapes as [\xhh]: the control characters, DEL,
    U+0080..U+00A0 and the soft hyphen. *)
Definition isprintable (c : ascii) : bool :=
  let n := ord c in
  negb ((n <? 32) || (127 <=? n) && (n <=? 160) || (n =? 173))%N.

Definition squote : ascii := ascii_of_N 39.
Definition dquote : ascii := ascii_of_N 34.
Definition backslash : ascii := ascii_of_N 92.

Definition hex_digit (n : N) : ascii :=
  if (n <? 10)%N then ascii_of_N (48 + n) else ascii_of_N (87 + n).

Fixpoint has_char (c : ascii) (s : string) : bool :=
  match s with
  | EmptyString => false
  | String a r => bool_decide (a = c) || has_char c r
  end.

Definition repr_char (quote c : ascii) : string :=
  if bool_decide (c = quote) || bool_decide (c = backslash) then
    String backslash (String c EmptyString)
  else if bool_decide (c = ascii_of_N 9) then String backslash "t"
  else if bool_decide (c = ascii_of_N 10) then String backslash "n"
  else if bool_decide (c = ascii_of_N 13) then String backslash "r"
  else if isprintable c then String c EmptyString
  else String backslash
         (String "x" (String (hex_digit (ord c / 16))
                        (String (hex_digit (ord c mod 16)) EmptyString))).

Fixpoint repr_body (quote : ascii) (s : string) : string :=
  match s with
  | EmptyString => EmptyString
  | String c r => repr_char quote c +:+ repr_body quote r
  end.

(** [repr(s)] of a [str]: single quotes, unless the text holds a single
    quote and no double quote. *)
Definition repr (s : string) : string :=
  let quote :=
    if has_char squote s && negb (has_char dquote s) then dquote else squote in
  String quote (repr_body quote s +:+ String quote EmptyString).

(** [repr(d)] of a [dict] with [str] keys and values, kept as the list of
    its items in insertion order. *)
Definition repr_dict (d : list (string * string)) : string :=
  "{" +:+ join ", " (map (λ kv, repr kv.1 +:+ ": " +:+ repr kv.2) d) +:+ "}".

(** [d[k] = v]: a present key keeps its place, a new one goes last. *)
Fixpoint dict_set (d : list (string * string)) (k v : string)
  : list (string * string) :=
  match d with
  | [] => [(k, v)]
  | (k', v') :: r =>
      if decide (k' = k) then (k, v) :: r else (k', v') :: dict_set r k v
  end.

(** [s[i:]] and [s[:i]] for an index [0 <= i]. *)
Fixpoint drop (i : nat) (s : string) : string :=
  match i, s with
  | O, _ => s
  | S _, EmptyString => EmptyString
  | S j, String _ r => drop j r
  end.

Fixpoint take (i : nat) (s : string) : string :=
  match i, s with
  | O, _ => EmptyString
  | S _, EmptyString => EmptyString
  | S j, String c r => String c (take j r)
  end.

(** [s.rfind(c)]: index of the last [c], or [-1]. *)
Fixpoint rfind (c : ascii) (s : string) : Z :=
  match s with
  | EmptyString => -1
  | String a r =>
      let i := rfind c r in
      if 0 <=? i then i + 1 else if decide (a = c) then 0 else -1
  end.

(** [s[i]] for [0 <= i < len(s)]. *)
Fixpoint get (i : nat) (s : string) : option ascii :=
  match s, i with
  | EmptyString, _ => None
  | String c _, O => Some c
  | String _ r, S j => get j r
  end.

End Py.

(** ** Exceptions *)

Inductive exn : Type :=
| EOFError
| ValueError (msg : string)
| TypeError (msg : string)
| IndexError
| KeyError (key : string)
| FileExistsError (path : string)
| FileNotFoundError (path : string)
| NotADirectoryError (path : string)
| IsADirectoryError (path : string)
| ReaderError (msg : string).

Inductive result (A : Type) : Type :=
| Ok (a : A)
| Raise (e : exn).
Arguments Ok {A} a.
Arguments Raise {A} e.

(** ** The table and its cells *)

(** A cell as [DataFrame.iterrows] hands it to the script.  [NA] is any
    value [pd.notna] rejects (NaN, None, NaT).  [VScalar] is a present
    scalar of a type the model does not look into (a float, a time stamp),
    given by its [str()]. *)
Inductive cell : Type :=
| NA
| VStr (s : string)
| VInt (z : Z)
| VBool (b : bool)
| VScalar (text : string).

Definition notna (v : cell) : bool :=
  match v with NA => false | _ => true end.

(** [str(v)] *)
Definition str (v : cell) : string :=
  match v with
  | NA => "nan"
  | VStr s => s
  | VInt z => pretty z
  | VBool true => "True"
  | VBool false => "False"
  | VScalar text => text
  end.

(** A column label.  [read_csv] gives [str] labels; [read_excel] gives
    the header cells as they are, so a numeric header cell gives an [int]
    label.  [LOther] is a label of another type (a float, a date), given
    by the name of its type and its text under [format]. *)
Inductive label : Type :=
| LStr (s : string)
| LInt (z : Z)
| LOther (type_name text : string).

Global Instance label_eq_dec : EqDecision label.
Proof. solve_decision. Defined.

(** [f"{col}"] *)
Definition label_text (l : label) : string :=
  match l with
  | LStr s => s
  | LInt z => pretty z
  | LOther _ text => text
  end.

(** [type(col).__name__] *)
Definition label_type (l : label) : string :=
  match l with
  | LStr _ => "str"
  | LInt _ => "int"
  | LOther type_name _ => type_name
  end.

(** [sep.join(cols)] on labels: [str.join] takes [str] items only and
    raises [TypeError] at the first other item, [i] being the index of the
    first label of [cols]. *)
Fixpoint join_items (i : nat) (cols : list label) : result (list string) :=
  match cols with
  | [] => Ok []
  | LStr s :: rest =>
      match join_items (S i) rest with
      | Ok items => Ok (s :: items)
      | Raise e => Raise e
      end
  | col :: _ =>
      Raise (TypeError ("sequence item " +:+ pretty i
                        +:+ ": expected str instance, " +:+ label_type col
                        +:+ " found"))
  end.

Definition join_labels (sep : string) (cols : list label) : result string :=
  match join_items 0 cols with
  | Ok items => Ok (Py.join sep items)
  | Raise e => Raise e
  end.

(** A row as [iterrows] yields it: the values labelled by the columns. *)
Abbreviation Series := (list (label * cell)).

Record DataFrame : Type := mkDataFrame {
  columns : list label;
  data : list (list cell)
}.

(** [df.iterrows()], without the index the script ignores. *)
Definition iterrows (df : DataFrame) : list Series :=
  map (λ r, zip (columns df) r) (data df).

(** [row.tolist()] *)
Definition tolist (row : Series) : list cell := map snd row.

(** [row[col]] for a scalar result.  An absent label raises [KeyError]; a
    label carried by several entries yields a sub-series, whose truth value
    the script then asks for, which raises [ValueError]. *)
Definition loc (row : Series) (col : label) : result cell :=
  match filter (λ kv, kv.1 = col) row with
  | [] => Raise (KeyError (label_text col))
  | [kv] => Ok kv.2
  | _ =>
      Raise (ValueError "The truth value of a Series is ambiguous. Use a.empty, a.bool(), a.item(), a.any() or a.all().")
  end.

(** Data frames the readers produce: column labels that differ from one
    another (the readers rename a repeated header), every row as wide as
    the header. *)
Definition rectangular (df : DataFrame) : Prop :=
  Forall (λ r, length r = length (columns df)) (data df).

Definition well_formed (df : DataFrame) : Prop :=
  NoDup (columns df) ∧ rectangular df.

(** ** Value formatter *)

(** The test both renderers apply to a cell:
    [pd.notna(v) and str(v).strip().lower() not in ['null', '', '-']]. *)
Definition has_value (v : cell) : bool :=
  notna v && negb (Py.contains (Py.lower (Py.strip (str v))) ["null"; ""; "-"]).

(** The literal of one cell in an INSERT tuple (the comprehension's
    element expression). *)
Definition format_value (v : cell) : string :=
  if has_value v then "'" +:+ str v +:+ "'" else "NULL".

(** ** Statement builders over a table *)

(** The loop of [generate_insert_queries] over the rows, appending one
    tuple per row to [values_list]. *)
Fixpoint insert_rows (rows : list Series) (values_list : list string)
  : list string :=
  match rows with
  | [] => values_list
  | row :: rest =>
      let values := map format_value (tolist row) in
      insert_rows rest (values_list ++ ["(" +:+ Py.join ", " values +:+ ")"])
  end.

Definition generate_insert_queries (df : DataFrame) (table_name : string)
  : result string :=
  match join_labels ", " (columns df) with
  | Raise e => Raise e
  | Ok joined =>
      let base_insert :=
        "INSERT INTO " +:+ table_name +:+ " (" +:+ joined +:+ ") VALUES" in
      let values_list := insert_rows (iterrows df) [] in
      Ok (base_insert +:+ " " +:+ Py.join ", " values_list +:+ ";")
  end.

(** The generator expression of the SET clause: for each column in header
    order, look the value up by label, keep it when it has a value. *)
Fixpoint set_items (row : Series) (cols : list label) : result (list string) :=
  match cols with
  | [] => Ok []
  | col :: rest =>
      match loc row col with
      | Raise e => Raise e
      | Ok v =>
          match set_items row rest with
          | Raise e => Raise e
          | Ok items =>
              if has_value v
              then Ok ((label_text col +:+ " = '" +:+ str v +:+ "'") :: items)
              else Ok items
          end
      end
  end.

(** The loop of [generate_update_queries], appending one statement per
    row to [queries]. *)
Fixpoint update_rows (cols : list label) (table_name condition : string)
  (rows : list Series) (queries : list string) : result (list string) :=
  match rows with
  | [] => Ok queries
  | row :: rest =>
      match set_items row cols with
      | Raise e => Raise e
      | Ok items =>
          let set_clause := Py.join ", " items in
          let query :=
            "UPDATE " +:+ table_name +:+ " SET " +:+ set_clause
            +:+ " WHERE " +:+ condition +:+ ";" in
          update_rows cols table_name condition rest (queries ++ [query])
      end
  end.

Definition generate_update_queries (df : DataFrame)
  (table_name condition : string) : result string :=
  match update_rows (columns df) table_name condition (iterrows df) [] with
  | Raise e => Raise e
  | Ok queries => Ok (Py.join (String (ascii_of_N 10) "") queries)
  end.

(** ** Paths ([os.path] on a POSIX system) *)

Module os_path.

(** The loop of [splitext] that skips the leading dots of the file name:
    [n] characters from [filenameIndex] on remain to be looked at. *)
Fixpoint splitext_scan (p : string) (filenameIndex n dotIndex : nat)
  : string * string :=
  match n with
  | O => (p, "")
  | S n' =>
      if decide (Py.get filenameIndex p = Some "."%char)
      then splitext_scan p (S filenameIndex) n' dotIndex
      else (Py.take dotIndex p, Py.drop dotIndex p)
  end.

(** [os.path.splitext(p)] *)
Definition splitext (p : string) : string * string :=
  let sepIndex := Py.rfind "/" p in
  let dotIndex := Py.rfind "." p in
  if sepIndex <? dotIndex then
    let filenameIndex := sepIndex + 1 in
    splitext_scan p (Z.to_nat filenameIndex)
      (Z.to_nat (dotIndex - filenameIndex)) (Z.to_nat dotIndex)
  else (p, "").

(** [os.path.basename(p)] *)
Definition basename (p : string) : string :=
  let i := Py.rfind "/" p + 1 in
  Py.drop (Z.to_nat i) p.

Definition startswith_sep (s : string) : bool :=
  match s with String "/" _ => true | _ => false end.

Fixpoint endswith_sep (s : string) : bool :=
  match s with
  | EmptyString => false
  | String c EmptyString => bool_decide (c = "/"%char)
  | String _ r => endswith_sep r
  end.

(** [os.path.join(a, b)] *)
Definition join (a b : string) : string :=
  if startswith_sep b then b
  else if bool_decide (a = "") || endswith_sep a then a +:+ b
  else a +:+ "/" +:+ b.

Fixpoint rstrip_sep (s : string) : string :=
  match s with
  | EmptyString => EmptyString
  | String c r =>
      match rstrip_sep r with
      | EmptyString => if decide (c = "/"%char) then "" else String c ""
      | r' => String c r'
      end
  end.

(** [os.path.dirname(p)] *)
Definition dirname (p : string) : string :=
  let head := Py.take (Z.to_nat (Py.rfind "/" p + 1)) p in
  match rstrip_sep head with
  | EmptyString => head
  | h => h
  end.

End os_path.

(** ** The file system and the console *)

(** Directories and regular files by path.  Permissions and disk space are
    not part of the model. *)
Record FS : Type := mkFS {
  dirs : gset string;
  files : gmap string string
}.

(** [os.path.exists(p)] *)
Definition path_exists (fs : FS) (p : string) : bool :=
  bool_decide (p ∈ dirs fs) || bool_decide (is_Some (files fs !! p)).

(** [os.makedirs(p)] for a path whose parent exists. *)
Definition makedirs (p : string) (fs : FS) : result FS :=
  if path_exists fs p then Raise (FileExistsError p)
  else Ok (mkFS ({[p]} ∪ dirs fs) (files fs)).

(** [open(p, 'w')] followed by one [write] and the close: the file is
    created or truncated and holds [content] afterwards. *)
Definition write_file (p content : string) (fs : FS) : result FS :=
  let parent := os_path.dirname p in
  if bool_decide (p ∈ dirs fs) then Raise (IsADirectoryError p)
  else if bool_decide (parent = "") || bool_decide (parent ∈ dirs fs)
  then Ok (mkFS (dirs fs) (<[p := content]> (files fs)))
  else if bool_decide (is_Some (files fs !! parent))
  then Raise (NotADirectoryError p)
  else Raise (FileNotFoundError p).

(** The world a run acts on: the lines still to be typed, the chunks
    written to the console so far, the file system, and the paths handed
    to the table readers so far. *)
Record world : Type := mkWorld {
  stdin : list string;
  stdout : list string;
  fs : FS;
  opened : list string
}.

Definition set_stdin (lines : list string) (w : world) : world :=
  mkWorld lines (stdout w) (fs w) (opened w).

Definition set_fs (f : FS) (w : world) : world :=
  mkWorld (stdin w) (stdout w) f (opened w).

(** Write a chunk to the console. *)
Definition write (s : string) (w : world) : world :=
  mkWorld (stdin w) (stdout w ++ [s]) (fs w) (opened w).

Definition nl : string := String (ascii_of_N 10) "".

(** [print(s)] as a state change. *)
Definition println (s : string) (w : world) : world := write (s +:+ nl) w.

(** Effectful code: a state change that returns a value or raises. *)
Definition IO (A : Type) : Type := world → result A * world.

Definition ret {A} (a : A) : IO A := λ w, (Ok a, w).

Definition raise {A} (e : exn) : IO A := λ w, (Raise e, w).

Definition bind {A B} (m : IO A) (k : A → IO B) : IO B :=
  λ w, match m w with
       | (Ok a, w') => k a w'
       | (Raise e, w') => (Raise e, w')
       end.

Notation "'do' x <- m ; k" := (bind m (λ x, k))
  (at level 10, x name, m at level 100, k at level 200).
Notation "m ;; k" := (bind m (λ _, k))
  (at level 100, k at level 200, right associativity).

(** [print(s)] *)
Definition print (s : string) : IO unit := λ w, (Ok tt, println s w).

(** [input(prompt)]: the prompt is written, then a line is read;
    [EOFError] when none is left. *)
Definition input (prompt : string) : IO string :=
  λ w, let w := write prompt w in
       match stdin w with
       | [] => (Raise EOFError, w)
       | line :: rest => (Ok line, set_stdin rest w)
       end.

(** Lift a file-system action. *)
Definition on_fs (act : FS → result FS) : IO unit :=
  λ w, match act (fs w) with
       | Ok f => (Ok tt, set_fs f w)
       | Raise e => (Raise e, w)
       end.

(** ** The script's functions *)

Definition show_warning : IO unit :=
  print "WARNING: This script will assist you in performing SQL operations like SELECT, INSERT, UPDATE, DELETE, etc." ;;
  print "For INSERT and UPDATE, a CSV/Excel file will be used. it will convert CSV/Excel data into SQL statements" ;;
  print "Any empty values, or '-' in the CSV/Excel sheet will be converted to NULL in the SQL queries." ;;
  print "Make sure you have the correct details before proceeding." ;;
  print "=========================================================".

Definition write_queries_to_file (query output_file : string) : IO unit :=
  let directory := "./storage" in
  do found <- (λ w, (Ok (path_exists (fs w) directory), w));
  (if negb found then on_fs (makedirs directory) else ret tt) ;;
  let output_file_path := os_path.join directory output_file in
  on_fs (write_file output_file_path (query +:+ nl +:+ nl)) ;;
  print ("SQL queries have been written to " +:+ output_file_path).

Definition get_output_file_name (input_file : string) : string :=
  let base_name := (os_path.splitext (os_path.basename input_file)).1 in
  base_name +:+ ".sql".

(** The [for] loop of [get_user_selection] printing the numbered options,
    [i] being the number of the first one. *)
Fixpoint print_options (i : nat) (options : list string) (w : world) : world :=
  match options with
  | [] => w
  | option :: rest =>
      print_options (S i) rest (println (pretty i +:+ ". " +:+ option) w)
  end.

(** The [while True] loop of [get_user_selection], by recursion on the
    lines still to be typed. *)
Fixpoint selection_loop (options : list string) (lines : list string)
  (w : world) : result string * world :=
  let n := length options in
  let w := write ("Enter your choice (1-" +:+ pretty n +:+ "): ") w in
  match lines with
  | [] => (Raise EOFError, set_stdin [] w)
  | line :: rest =>
      let w := set_stdin rest w in
      match Py.int line with
      | Some choice =>
          if (1 <=? choice) && (choice <=? Z.of_nat n) then
            match options !! Z.to_nat (choice - 1) with
            | Some option => (Ok option, w)
            | None => (Raise IndexError, w)
            end
          else
            selection_loop options rest
              (println ("Please enter a number between 1 and " +:+ pretty n
                        +:+ ".") w)
      | None =>
          selection_loop options rest
            (println "Invalid input, please enter a number." w)
      end
  end.

Definition get_user_selection (options : list string) (prompt : string)
  : IO string :=
  λ w, let w := println prompt w in
       let w := print_options 1 options w in
       selection_loop options (stdin w) w.

(** The loops of the driver that ask for a table or view name until the
    trimmed line is not empty. *)
Fixpoint name_loop (prompt complaint : string) (lines : list string)
  (w : world) : result string * world :=
  let w := write prompt w in
  match lines with
  | [] => (Raise EOFError, set_stdin [] w)
  | line :: rest =>
      let w := set_stdin rest w in
      let name := Py.strip line in
      if decide (name = "") then
        name_loop prompt complaint rest (println complaint w)
      else (Ok name, w)
  end.

Definition ask_name (prompt complaint : string) : IO string :=
  λ w, name_loop prompt complaint (stdin w) w.

(** The loop of the [create_table] branch that fills the [columns] dict:
    four lines per column, until the column name is [done]. *)
Fixpoint columns_loop (lines : list string) (cols : list (string * string))
  (w : world) : result (list (string * string)) * world :=
  let w := write "Enter column name (or type 'done' to finish): " w in
  match lines with
  | [] => (Raise EOFError, set_stdin [] w)
  | col_name :: rest =>
      if decide (Py.lower col_name = "done") then (Ok cols, set_stdin rest w)
      else
        let w := write ("Enter data type for " +:+ col_name +:+ ": ") w in
        match rest with
        | [] => (Raise EOFError, set_stdin [] w)
        | col_type :: rest1 =>
            let w :=
              write ("Enter default value for " +:+ col_name
                     +:+ " (or leave blank for none): ") w in
            match rest1 with
            | [] => (Raise EOFError, set_stdin [] w)
            | col_default :: rest2 =>
                let w :=
                  write ("Is " +:+ col_name
                         +:+ " a PRIMARY KEY, UNIQUE, or INDEX (leave blank if none): ")
                    w in
                match rest2 with
                | [] => (Raise EOFError, set_stdin [] w)
                | col_key :: rest3 =>
                    let value :=
                      col_type +:+ " " +:+ col_key +:+ " "
                      +:+ (if decide (col_default = "") then ""
                           else "DEFAULT " +:+ col_default) in
                    columns_loop rest3 (Py.dict_set cols col_name value) w
                end
            end
        end
  end.

Definition ask_columns : IO (list (string * string)) :=
  λ w, columns_loop (stdin w) [] w.

(** [a or b] on strings. *)
Definition or_default (a b : string) : string :=
  if decide (a = "") then b else a.

Definition operations : list string :=
  ["select"; "insert"; "update"; "delete"; "create_table"; "drop_table";
   "alter_table"; "create_view"; "drop_view"].

Definition unsupported : string :=
  "Unsupported file format. Please provide a CSV or Excel file.".

Section Driver.

(** The parts of the platform the script calls and the model leaves
    open: [os.path.realpath] and the two pandas readers. *)
Variable realpath : string → string.
Variable read_csv read_excel : string → result DataFrame.

(** A reader call: the path is noted, the reader's answer returned. *)
Definition call_reader (reader : string → result DataFrame)
  (file_path : string) : IO DataFrame :=
  λ w, let w := mkWorld (stdin w) (stdout w) (fs w) (opened w ++ [file_path]) in
       match reader file_path with
       | Ok df => (Ok df, w)
       | Raise e => (Raise e, w)
       end.

Definition read_input_file (file_path : string) : IO DataFrame :=
  let file_extension := Py.lower (os_path.splitext file_path).2 in
  if decide (file_extension = ".csv") then call_reader read_csv file_path
  else if Py.contains file_extension [".xls"; ".xlsx"]
  then call_reader read_excel file_path
  else raise (ValueError unsupported).

Definition lift {A} (r : result A) : IO A :=
  match r with Ok a => ret a | Raise e => raise e end.

Definition generated (sql_query : string) : IO unit :=
  print ("Generated SQL Query:" +:+ nl +:+ sql_query).

(** The [if]/[elif] chain of the driver, on the chosen operation and the
    table name. *)
Definition dispatch (operation table_name : string) : IO unit :=
  if decide (operation = "select") then
    do columns_in <- input "Enter the columns to select (comma-separated, or * for all): ";
    let columns := Py.strip columns_in in
    do limit_in <- input "Enter the limit (default is 10): ";
    let limit := or_default (Py.strip limit_in) "10" in
    do offset_in <- input "Enter the offset (default is 0): ";
    let offset := or_default (Py.strip offset_in) "0" in
    do condition_in <- input "Enter any conditions (or leave blank): ";
    let condition := Py.strip condition_in in
    let sql_query :=
      "SELECT " +:+ Py.join ", " (Py.split "," columns) +:+ " FROM "
      +:+ table_name +:+ " WHERE " +:+ condition +:+ " LIMIT " +:+ limit
      +:+ " OFFSET " +:+ offset +:+ ";" in
    generated sql_query
  else if Py.contains operation ["insert"; "update"] then
    do path_in <- input "Enter full path of the CSV/Excel file: ";
    let file_path := realpath path_in in
    do df <- read_input_file file_path;
    do sql_query <-
      (if decide (operation = "insert")
       then lift (generate_insert_queries df table_name)
       else
         do condition <- input "Enter the condition for updating rows (e.g., WHERE id = 1): ";
         lift (generate_update_queries df table_name condition));
    let output_file_path := get_output_file_name file_path in
    write_queries_to_file sql_query output_file_path ;;
    print ("SQL queries have been written to " +:+ output_file_path)
  else if decide (operation = "delete") then
    do condition <- input "Enter the condition for DELETE (e.g., id=10): ";
    generated ("DELETE FROM " +:+ table_name +:+ " WHERE " +:+ condition +:+ ";")
  else if decide (operation = "create_table") then
    do cols <- ask_columns;
    generated ("CREATE TABLE " +:+ table_name +:+ " (" +:+ Py.repr_dict cols +:+ ");")
  else if decide (operation = "drop_table") then
    generated ("DROP TABLE IF EXISTS " +:+ table_name +:+ ";")
  else if decide (operation = "alter_table") then
    do alter_statement <- input "Enter the ALTER TABLE statement (e.g., ADD COLUMN age INT): ";
    generated ("ALTER TABLE " +:+ table_name +:+ " " +:+ alter_statement +:+ ";")
  else if decide (operation = "create_view") then
    do view_name <- ask_name "Enter the view name: "
                      "View name cannot be empty. Please enter a valid view name.";
    do select_statement <- input "Enter the SELECT statement (e.g., SELECT id, name FROM users): ";
    generated ("CREATE VIEW " +:+ view_name +:+ " AS " +:+ select_statement +:+ ";")
  else if decide (operation = "drop_view") then
    do view_name <- ask_name "Enter the view name: "
                      "View name cannot be empty. Please enter a valid view name.";
    generated ("DROP VIEW IF EXISTS " +:+ view_name +:+ ";")
  else ret tt.

(** The body under [if __name__ == '__main__']. *)
Definition main : IO unit :=
  show_warning ;;
  do operation <- get_user_selection operations "Choose an SQL operation to perform:";
  do table_name <- ask_name "Enter the table name: "
                     "Table name cannot be empty. Please enter a valid table name.";
  dispatch operation table_name.

End Driver.

(** ** Sample data *)

Definition users : DataFrame :=
  mkDataFrame [LStr "id"; LStr "name"]
    [[VInt 1; VStr "Alice"]; [VInt 2; VStr "-"]].

(** A sheet whose header cells are the numbers 2020 and 2021, as
    [read_excel] hands it over. *)
Definition sales : DataFrame :=
  mkDataFrame [LInt 2020; LInt 2021] [[VInt 10; VInt 20]].

Definition empty_fs : FS := mkFS ∅ ∅.

(** The numeral 2 behind the separator U+001C, which [str.strip] drops
    and [int()] does not. *)
Definition fs_two : string := String (ascii_of_N 28) "2".

(** [n] zeros. *)
Fixpoint zeros (n : nat) : string :=
  match n with
  | O => EmptyString
  | S m => String "0" (zeros m)
  end.

Definition start (lines : list string) : world := mkWorld lines [] empty_fs [].

Definition no_reader (p : string) : result DataFrame :=
  Raise (FileNotFoundError p).

(** ** Notions the properties are stated with *)

(** The sentinel set of the specification: a missing value, or a text
    whose trimmed, lower-cased form is empty, [null] or a dash. *)
Definition null_text (s : string) : Prop :=
  Py.strip (Py.lower s) ∈ [""; "null"; "-"].

Definition sentinel (v : cell) : Prop :=
  notna v = false ∨ null_text (str v).

(** One parenthesised tuple of an INSERT statement. *)
Definition tuple (r : list cell) : string :=
  "(" +:+ Py.join ", " (map format_value r) +:+ ")".

(** [col = 'value'], one assignment of a SET clause. *)
Definition assignment (kv : label * cell) : string :=
  label_text kv.1 +:+ " = '" +:+ str kv.2 +:+ "'".

Global Instance sentinel_dec (v : cell) : Decision (sentinel v).
Proof. unfold sentinel, null_text. apply _. Defined.

(** The SET clause the specification describes for a row: the assignments
    of the columns whose value is no sentinel, in column order. *)
Definition set_clause (cols : list label) (r : list cell) : string :=
  Py.join ", "
    (map assignment (filter (λ kv, ¬ sentinel kv.2) (zip cols r))).

(** One UPDATE statement. *)
Definition update_statement (table_name condition : string)
  (cols : list label) (r : list cell) : string :=
  "UPDATE " +:+ table_name +:+ " SET " +:+ set_clause cols r
  +:+ " WHERE " +:+ condition +:+ ";".

(** The text [print] writes for a generated statement. *)
Definition announcement (sql_query : string) : string :=
  "Generated SQL Query:" +:+ nl +:+ sql_query +:+ nl.

(** The last chunk a run wrote to the console. *)
Definition printed (r : result unit * world) : option string :=
  last (stdout r.2).

(** A line the menu turns down: no integer, or an integer outside 1..n. *)
Definition rejected (n : nat) (line : string) : Prop :=
  match Py.int line with
  | None => True
  | Some z => z < 1 ∨ Z.of_nat n < z
  end.

Definition choice_prompt (n : nat) : string :=
  "Enter your choice (1-" +:+ pretty n +:+ "): ".

(** The answer of the menu to a line it turns down. *)
Definition complaint (n : nat) (line : string) : string :=
  match Py.int line with
  | None => "Invalid input, please enter a number." +:+ nl
  | Some _ => "Please enter a number between 1 and " +:+ pretty n +:+ "." +:+ nl
  end.

(** The console after a run of turned-down lines: each was asked for and
    answered by its complaint. *)
Definition retries (n : nat) (bad : list string) : list string :=
  flat_map (λ line, [choice_prompt n; complaint n line]) bad.

(** The numbered options, the first one carrying number [i]. *)
Fixpoint numbered (i : nat) (options : list string) : list string :=
  match options with
  | [] => []
  | option :: rest => (pretty i +:+ ". " +:+ option +:+ nl) :: numbered (S i) rest
  end.

(** The statement templates of the free-form operations, each fragment
    placed as it is. *)
Definition select_template (cols table_name condition limit offset : string)
  : string :=
  "SELECT " +:+ cols +:+ " FROM " +:+ table_name +:+ " WHERE " +:+ condition
  +:+ " LIMIT " +:+ limit +:+ " OFFSET " +:+ offset +:+ ";".

Definition delete_template (table_name condition : string) : string :=
  "DELETE FROM " +:+ table_name +:+ " WHERE " +:+ condition +:+ ";".

Definition create_table_template (table_name cols : string) : string :=
  "CREATE TABLE " +:+ table_name +:+ " (" +:+ cols +:+ ");".

Definition drop_table_template (table_name : string) : string :=
  "DROP TABLE IF EXISTS " +:+ table_name +:+ ";".

Definition alter_table_template (table_name alter_statement : string) : string :=
  "ALTER TABLE " +:+ table_name +:+ " " +:+ alter_statement +:+ ";".

Definition create_view_template (view_name select_statement : string) : string :=
  "CREATE VIEW " +:+ view_name +:+ " AS " +:+ select_statement +:+ ";".

Definition drop_view_template (view_name : string) : string :=
  "DROP VIEW IF EXISTS " +:+ view_name +:+ ";".

(** A column list with a blank put after each comma. *)
Fixpoint comma_space (s : string) : string :=
  match s with
  | EmptyString => EmptyString
  | String c r =>
      if decide (c = ","%char) then String "," (String " " (comma_space r))
      else String c (comma_space r)
  end.

(** [frag in s] on strings. *)
Fixpoint prefixb (frag s : string) : bool :=
  match frag, s with
  | EmptyString, _ => true
  | String a frag', String b s' => bool_decide (a = b) && prefixb frag' s'
  | String _ _, EmptyString => false
  end.

Fixpoint occursb (frag s : string) : bool :=
  prefixb frag s
  || match s with
     | EmptyString => false
     | String _ s' => occursb frag s'
     end.

(** The four lines typed for one column of CREATE TABLE. *)
Record column_entry : Type := mkEntry {
  entry_name : string;
  entry_type : string;
  entry_default : string;
  entry_key : string
}.

Definition entry_lines (e : column_entry) : list string :=
  [entry_name e; entry_type e; entry_default e; entry_key e].

Definition entry_value (e : column_entry) : string :=
  entry_type e +:+ " " +:+ entry_key e +:+ " "
  +:+ (if decide (entry_default e = "") then ""
       else "DEFAULT " +:+ entry_default e).

(** The dict built from the typed columns, in typing order. *)
Definition collected (cols : list (string * string))
  (entries : list column_entry) : list (string * string) :=
  fold_left (λ d e, Py.dict_set d (entry_name e) (entry_value e)) entries cols.

(** The console after a run of blank lines typed for a name: each was
    asked for and answered by the complaint. *)
Definition blank_retries (prompt complaint : string) (blanks : list string)
  : list string :=
  flat_map (λ _, [prompt; complaint +:+ nl]) blanks.

(** An action that leaves the file system and the reader log alone,
    whatever it returns. *)
Definition keeps_files {A} (m : IO A) : Prop :=
  ∀ w, fs (m w).2 = fs w ∧ opened (m w).2 = opened w.

(** Every character of a text passes a test. *)
Fixpoint all_chars (P : ascii → bool) (s : string) : bool :=
  match s with
  | EmptyString => true
  | String c r => P c && all_chars P r
  end.

(** The characters of a decimal numeral. *)
Definition numeral_char (c : ascii) : bool :=
  bool_decide (c = "-"%char) || bool_decide (is_Some (Py.digit c)).

(** The reader [read_input_file] picks for a path answers with a table. *)
Definition reader_gives (read_csv read_excel : string → result DataFrame)
  (file_path : string) (df : DataFrame) : Prop :=
  (Py.lower (os_path.splitext file_path).2 = ".csv"
   ∧ read_csv file_path = Ok df)
  ∨ (Py.lower (os_path.splitext file_path).2 ∈ [".xls"; ".xlsx"]
     ∧ read_excel file_path = Ok df).

(** The reader [read_input_file] picks for a path fails. *)
Definition reader_fails (read_csv read_excel : string → result DataFrame)
  (file_path : string) (e : exn) : Prop :=
  (Py.lower (os_path.splitext file_path).2 = ".csv"
   ∧ read_csv file_path = Raise e)
  ∨ (Py.lower (os_path.splitext file_path).2 ∈ [".xls"; ".xlsx"]
     ∧ read_excel file_path = Raise e).

(** The two chunks the console ends with after a table was written. *)
Definition written_notes (name : string) : list string :=
  ["SQL queries have been written to ./storage/" +:+ name +:+ nl;
   "SQL queries have been written to " +:+ name +:+ nl].

(** ** Properties of the Python built-ins *)

Lemma isspace_lower_char c : Py.isspace (Py.lower_char c) = Py.isspace c.
Proof. by destruct c as [[] [] [] [] [] [] [] []]. Qed.

Lemma lstrip_lower s : Py.lstrip (Py.lower s) = Py.lower (Py.lstrip s).
Proof.
  induction s as [|c s IH]; simpl; [done|].
  rewrite isspace_lower_char. by destruct (Py.isspace c).
Qed.

Lemma rstrip_lower s : Py.rstrip (Py.lower s) = Py.lower (Py.rstrip s).
Proof.
  induction s as [|c s IH]; simpl; [done|].
  rewrite IH, isspace_lower_char.
  destruct (Py.rstrip s); simpl; [|done]. by destruct (Py.isspace c).
Qed.

(** Trimming and lower-casing commute, so the order in which the
    specification and the script apply them does not matter. *)
Lemma strip_lower s : Py.strip (Py.lower s) = Py.lower (Py.strip s).
Proof. unfold Py.strip. by rewrite rstrip_lower, lstrip_lower. Qed.

Lemma contains_true x l : Py.contains x l = true ↔ x ∈ l.
Proof. unfold Py.contains. apply bool_decide_eq_true. Qed.

Lemma has_value_sentinel v : has_value v = false ↔ sentinel v.
Proof.
  unfold has_value, sentinel, null_text. rewrite strip_lower.
  rewrite andb_false_iff, negb_false_iff, contains_true.
  rewrite !elem_of_cons, elem_of_nil. tauto.
Qed.

Lemma has_value_not_sentinel v : has_value v = true ↔ ¬ sentinel v.
Proof.
  rewrite <- has_value_sentinel. by destruct (has_value v).
Qed.

(** ** The value formatter *)

(** C1. For every cell value [v] the formatter returns the unquoted token
    NULL exactly when [v] is missing or the trimmed, lower-cased text of
    [v] is empty, [null] or a dash; otherwise it returns the raw text of
    [v], untrimmed and with its case, between single quotes and without
    any escaping. *)
Theorem format_value_spec (v : cell) :
  (format_value v = "NULL" ↔
     notna v = false ∨ Py.strip (Py.lower (str v)) ∈ [""; "null"; "-"])
  ∧ (¬ (notna v = false ∨ Py.strip (Py.lower (str v)) ∈ [""; "null"; "-"]) →
     format_value v = "'" +:+ str v +:+ "'").
Proof.
  fold (null_text (str v)). fold (sentinel v). split.
  - rewrite <- has_value_sentinel. unfold format_value.
    destruct (has_value v); [|done]. split; [|done]. simpl. by intros [=].
  - rewrite <- has_value_not_sentinel. unfold format_value. by intros ->.
Qed.

(** The raw text is kept as it is: no trimming, no case change, no
    escaping of an embedded quote; numbers are quoted like text. *)
Example format_value_raw :
  format_value (VStr " O'Neil ") = "' O'Neil '"
  ∧ format_value (VInt (-5)) = "'-5'"
  ∧ format_value (VStr " NuLL ") = "NULL"
  ∧ format_value NA = "NULL".
Proof. repeat split. Qed.

(** ** Strings and joins *)

Lemma append_cons (x : ascii) (a b : string) :
  String x a +:+ b = String x (a +:+ b).
Proof. reflexivity. Qed.

Lemma append_assoc (a b c : string) : (a +:+ b) +:+ c = a +:+ b +:+ c.
Proof.
  induction a as [|x a IH]; [done|]. rewrite !append_cons. by rewrite IH.
Qed.

Lemma append_nil_r (a : string) : a +:+ "" = a.
Proof.
  induction a as [|x a IH]; [done|]. rewrite append_cons. by rewrite IH.
Qed.

Lemma zip_tolist (cols : list label) (r : list cell) :
  length r = length cols → tolist (zip cols r) = r.
Proof. intros H. apply snd_zip. lia. Qed.

(** ** INSERT rendering *)

(** The loop leaves [values_list] extended by one tuple per row. *)
Lemma insert_rows_eq rows values_list :
  insert_rows rows values_list
  = values_list ++ map (λ row, tuple (tolist row)) rows.
Proof.
  revert values_list.
  induction rows as [|row rows IH]; intros acc; simpl.
  - by rewrite app_nil_r.
  - rewrite IH. by rewrite <- app_assoc.
Qed.

Lemma insert_rows_rectangular df :
  rectangular df → insert_rows (iterrows df) [] = map tuple (data df).
Proof.
  intros Hrect. rewrite insert_rows_eq. simpl. unfold iterrows.
  rewrite map_map. apply map_ext_Forall.
  eapply Forall_impl; [exact Hrect|]. simpl. intros r Hr.
  by rewrite zip_tolist.
Qed.

Lemma join_items_str (i : nat) (names : list string) :
  join_items i (LStr <$> names) = Ok names.
Proof.
  revert i. induction names as [|name names IH]; intros i; [done|].
  rewrite fmap_cons. cbn [join_items]. by rewrite IH.
Qed.

(** The first label that is no [str] stops the join with a [TypeError]
    that names its position and type. *)
Lemma join_items_other (i : nat) (names : list string) (col : label)
  (rest : list label) :
  (∀ s, col ≠ LStr s) →
  join_items i ((LStr <$> names) ++ col :: rest)
  = Raise (TypeError ("sequence item " +:+ pretty (i + length names)%nat
                      +:+ ": expected str instance, " +:+ label_type col
                      +:+ " found")).
Proof.
  intros Hcol. revert i.
  induction names as [|name names IH]; intros i.
  - cbn [fmap list_fmap app length join_items]. rewrite Nat.add_0_r.
    destruct col as [s| |]; [by destruct (Hcol s)|done|done].
  - rewrite fmap_cons. cbn [app join_items length]. rewrite IH.
    by replace (S i + length names)%nat with (i + S (length names))%nat
      by lia.
Qed.

Lemma generate_insert_queries_eq (df : DataFrame) (table_name : string)
  (names : list string) :
  rectangular df → columns df = LStr <$> names →
  generate_insert_queries df table_name
  = Ok ("INSERT INTO " +:+ table_name +:+ " (" +:+ Py.join ", " names
        +:+ ") VALUES " +:+ Py.join ", " (map tuple (data df)) +:+ ";").
Proof.
  intros Hrect Hcols. unfold generate_insert_queries, join_labels.
  rewrite insert_rows_rectangular by done.
  rewrite Hcols, join_items_str. by rewrite !append_assoc.
Qed.

(** C2. The claim holds for tables whose column labels are all [str], but
    not for every table the readers give: for the sheet with the numeric
    header cells 2020 and 2021 the INSERT builder raises [TypeError] in
    [', '.join(columns)] and yields no statement, while the UPDATE builder
    renders the same labels. *)
Theorem generate_insert_queries_int_labels :
  well_formed sales
  ∧ generate_insert_queries sales "sales"
    = Raise (TypeError "sequence item 0: expected str instance, int found")
  ∧ generate_update_queries sales "sales" "id = 1"
    = Ok "UPDATE sales SET 2020 = '10', 2021 = '20' WHERE id = 1;".
Proof.
  split; [|split; reflexivity]. split.
  - unfold sales. cbn [columns]. apply NoDup_cons.
    split; [|apply NoDup_singleton].
    rewrite list_elem_of_singleton. by intros [=].
  - unfold rectangular. cbn. repeat constructor.
Qed.

(** X14. For a table whose column labels are all [str] (every table
    [read_csv] gives) with columns c1..cn and rows r1..rm, the INSERT
    builder yields one statement
    [INSERT INTO t (c1, ..., cn) VALUES (t1), ..., (tm);] whose tuple [ti]
    is the comma-joined formatter output of row i in column order; a
    table without rows yields the ending [VALUES ;]; and the table
    (1, Alice), (2, -) named users yields the statement of the
    specification. *)
Theorem generate_insert_queries_spec (df : DataFrame) (table_name : string)
  (names : list string) :
  rectangular df → columns df = LStr <$> names →
  generate_insert_queries df table_name
  = Ok ("INSERT INTO " +:+ table_name +:+ " (" +:+ Py.join ", " names
        +:+ ") VALUES " +:+ Py.join ", " (map tuple (data df)) +:+ ";")
  ∧ (data df = [] →
     generate_insert_queries df table_name
     = Ok ("INSERT INTO " +:+ table_name +:+ " (" +:+ Py.join ", " names
           +:+ ") VALUES ;"))
  ∧ generate_insert_queries users "users"
    = Ok "INSERT INTO users (id, name) VALUES ('1', 'Alice'), ('2', NULL);".
Proof.
  intros Hrect Hcols.
  pose proof (generate_insert_queries_eq df table_name names Hrect Hcols)
    as Heq.
  split; [exact Heq|]. split; [|reflexivity].
  intros Hnil. rewrite Heq, Hnil. reflexivity.
Qed.

Lemma users_rectangular : rectangular users.
Proof. unfold rectangular. cbn. repeat constructor. Qed.

Lemma generate_insert_queries_users :
  (rectangular users ∧ columns users = LStr <$> ["id"; "name"])
  ∧ generate_insert_queries users "users"
    = Ok "INSERT INTO users (id, name) VALUES ('1', 'Alice'), ('2', NULL);".
Proof.
  split; [split; [exact users_rectangular|reflexivity]|].
  destruct (generate_insert_queries_spec users "users" ["id"; "name"]
              users_rectangular eq_refl) as [-> _].
  reflexivity.
Defined.

(** ** UPDATE rendering *)

Lemma filter_label_absent (row : Series) (k : label) :
  k ∉ row.*1 → filter (λ kv, kv.1 = k) row = [].
Proof.
  induction row as [|[k' v'] row IH]; [done|].
  rewrite fmap_cons, not_elem_of_cons. intros [Hne Hnotin].
  rewrite filter_cons_False by (simpl in *; congruence). by apply IH.
Qed.

(** With unique labels, [row[col]] is the value stored under [col]. *)
Lemma loc_unique (pre post : Series) (k : label) (v : cell) :
  NoDup ((pre ++ (k, v) :: post).*1) → loc (pre ++ (k, v) :: post) k = Ok v.
Proof.
  rewrite fmap_app, fmap_cons. simpl. intros Hnd.
  apply NoDup_app in Hnd as (_ & Hpre & Hpost).
  apply NoDup_cons in Hpost as [Hpost _].
  unfold loc. rewrite filter_app, filter_cons_True by done.
  rewrite !filter_label_absent; [done|done|].
  intros Hin. apply (Hpre k Hin). apply elem_of_cons. by left.
Qed.

Lemma set_items_suffix (pre kvs : Series) :
  NoDup ((pre ++ kvs).*1) →
  set_items (pre ++ kvs) (kvs.*1)
  = Ok (map assignment (filter (λ kv, ¬ sentinel kv.2) kvs)).
Proof.
  revert pre. induction kvs as [|[k v] kvs IH]; intros pre Hnd; [done|].
  rewrite fmap_cons. simpl. rewrite loc_unique by done.
  replace (pre ++ (k, v) :: kvs) with ((pre ++ [(k, v)]) ++ kvs) in *
    by (by rewrite <- app_assoc).
  rewrite IH by done.
  destruct (has_value v) eqn:Hv.
  - rewrite filter_cons_True; [done|]. simpl. by apply has_value_not_sentinel.
  - rewrite filter_cons_False; [done|]. simpl.
    apply has_value_sentinel in Hv. tauto.
Qed.

Lemma set_items_row (cols : list label) (r : list cell) :
  NoDup cols → length r = length cols →
  set_items (zip cols r) cols
  = Ok (map assignment (filter (λ kv, ¬ sentinel kv.2) (zip cols r))).
Proof.
  intros Hnd Hlen.
  assert ((zip cols r).*1 = cols) as Hfst by (apply fst_zip; lia).
  rewrite <- Hfst at 2.
  apply (set_items_suffix [] (zip cols r)). simpl. by rewrite Hfst.
Qed.

(** The loop leaves [queries] extended by one statement per row. *)
Lemma update_rows_eq (cols : list label) (table_name condition : string)
  (rows : list (list cell)) (queries : list string) :
  NoDup cols → Forall (λ r, length r = length cols) rows →
  update_rows cols table_name condition (map (λ r, zip cols r) rows) queries
  = Ok (queries ++ map (update_statement table_name condition cols) rows).
Proof.
  intros Hnd Hrows. revert queries.
  induction Hrows as [|r rows Hr Hrows IH]; intros queries; simpl.
  - by rewrite app_nil_r.
  - rewrite set_items_row by done. rewrite IH. by rewrite <- app_assoc.
Qed.

Lemma generate_update_queries_eq (df : DataFrame)
  (table_name condition : string) :
  well_formed df →
  generate_update_queries df table_name condition
  = Ok (Py.join nl
          (map (update_statement table_name condition (columns df)) (data df))).
Proof.
  intros [Hnd Hrect]. unfold generate_update_queries, iterrows.
  by rewrite update_rows_eq.
Qed.

Lemma zip_snd_elem (cols : list label) (r : list cell) (kv : label * cell) :
  kv ∈ zip cols r → kv.2 ∈ r.
Proof.
  revert r. induction cols as [|c cols IH]; intros [|v r]; simpl;
    try by rewrite elem_of_nil.
  rewrite !elem_of_cons. intros [->|Hin]; [by left|]. right. by apply IH.
Qed.

Lemma set_clause_all_sentinel (cols : list label) (r : list cell) :
  Forall sentinel r → set_clause cols r = "".
Proof.
  intros Hall. unfold set_clause.
  assert (Forall (λ kv : label * cell, sentinel kv.2) (zip cols r)) as Hzip.
  { apply Forall_forall. intros kv Hin.
    eapply (proj1 (Forall_forall _ _) Hall), zip_snd_elem, Hin. }
  induction Hzip as [|kv l Hkv Hl IH]; [done|].
  rewrite filter_cons_False by tauto. exact IH.
Qed.

(** C3. For a well-formed table the UPDATE builder renders each row with a
    SET clause that holds exactly the columns whose value is no sentinel,
    each as [col = 'raw value'], comma-joined in column order; a sentinel
    column is left out, not rendered as [col = NULL]; a row without an
    eligible column gives the text [SET  WHERE]; and the two-row table of
    the specification gives its two statements. *)
Theorem generate_update_queries_set_clause (df : DataFrame)
  (table_name condition : string) :
  well_formed df →
  generate_update_queries df table_name condition
  = Ok (Py.join nl
          (map (λ r, "UPDATE " +:+ table_name +:+ " SET "
                     +:+ Py.join ", "
                           (map (λ kv, label_text kv.1 +:+ " = '"
                                       +:+ str kv.2 +:+ "'")
                              (filter (λ kv, ¬ sentinel kv.2)
                                 (zip (columns df) r)))
                     +:+ " WHERE " +:+ condition +:+ ";")
             (data df)))
  ∧ (∀ r, Forall sentinel r →
       update_statement table_name condition (columns df) r
       = "UPDATE " +:+ table_name +:+ " SET  WHERE " +:+ condition +:+ ";")
  ∧ generate_update_queries users "users" "id = 1"
    = Ok ("UPDATE users SET id = '1', name = 'Alice' WHERE id = 1;" +:+ nl
          +:+ "UPDATE users SET id = '2' WHERE id = 1;").
Proof.
  intros Hwf. split; [by apply generate_update_queries_eq|].
  split; [|reflexivity].
  intros r Hall. unfold update_statement.
  by rewrite set_clause_all_sentinel.
Qed.

Lemma users_well_formed : well_formed users.
Proof.
  split.
  - unfold users. simpl. apply NoDup_cons. split; [|apply NoDup_singleton].
    rewrite list_elem_of_singleton. by intros [=].
  - exact users_rectangular.
Qed.

Lemma generate_update_queries_users :
  well_formed users
  ∧ generate_update_queries users "users" "id = 1"
    = Ok (Py.join nl
            ["UPDATE users SET id = '1', name = 'Alice' WHERE id = 1;";
             "UPDATE users SET id = '2' WHERE id = 1;"]).
Proof.
  split; [exact users_well_formed|].
  destruct (generate_update_queries_set_clause users "users" "id = 1"
              users_well_formed) as (_ & _ & ->).
  reflexivity.
Defined.



(** A row of sentinels only, and a table outside [well_formed]: with a
    label used twice, [row[col]] is no scalar and the builder raises. *)
Example generate_update_queries_edge :
  generate_update_queries (mkDataFrame [LStr "a"; LStr "b"] [[NA; VStr " - "]])
    "t" "c"
  = Ok "UPDATE t SET  WHERE c;"
  ∧ generate_update_queries
      (mkDataFrame [LStr "a"; LStr "a"] [[VInt 1; VInt 2]]) "t" "c"
    = Raise (ValueError "The truth value of a Series is ambiguous. Use a.empty, a.bool(), a.item(), a.any() or a.all().").
Proof. split; reflexivity. Qed.

(** ** The menu *)

Lemma print_options_stdout (i : nat) (options : list string) (w : world) :
  print_options i options w
  = mkWorld (stdin w) (stdout w ++ numbered i options) (fs w) (opened w).
Proof.
  revert i w. induction options as [|option options IH]; intros i w; simpl.
  - rewrite app_nil_r. by destruct w.
  - rewrite IH. simpl. by rewrite <- app_assoc, !append_assoc.
Qed.

(** The loop turns down every line of [bad], then takes [good]. *)
Lemma selection_loop_accept (options bad : list string) (good : string)
  (rest : list string) (k : Z) (option : string) (w : world) :
  Forall (rejected (length options)) bad →
  Py.int good = Some k → 1 ≤ k ≤ Z.of_nat (length options) →
  options !! Z.to_nat (k - 1) = Some option →
  selection_loop options (bad ++ good :: rest) w
  = (Ok option,
     mkWorld rest
       (stdout w ++ retries (length options) bad
        ++ [choice_prompt (length options)])
       (fs w) (opened w)).
Proof.
  intros Hbad Hgood Hk Hopt. revert w.
  induction Hbad as [|line bad Hline Hbad IH]; intros w; simpl.
  - rewrite Hgood.
    replace ((1 <=? k) && (k <=? Z.of_nat (length options))) with true
      by (symmetry; apply andb_true_iff; lia).
    by rewrite Hopt.
  - unfold rejected in Hline. unfold complaint.
    destruct (Py.int line) as [z|] eqn:Hz.
    + replace ((1 <=? z) && (z <=? Z.of_nat (length options))) with false
        by (symmetry; apply andb_false_iff; lia).
      rewrite IH. simpl. by rewrite <- !app_assoc, !append_assoc.
    + rewrite IH. simpl. by rewrite <- !app_assoc.
Qed.

Lemma lookup_choice (options : list string) (k : Z) :
  1 ≤ k ≤ Z.of_nat (length options) →
  ∃ option, options !! Z.to_nat (k - 1) = Some option.
Proof.
  intros Hk. apply lookup_lt_is_Some_2. lia.
Qed.

Lemma get_user_selection_accept (options : list string) (prompt : string)
  (bad : list string) (good : string) (rest : list string) (k : Z)
  (option : string) (out : list string) (f : FS) (o : list string) :
  Forall (rejected (length options)) bad →
  Py.int good = Some k → 1 ≤ k ≤ Z.of_nat (length options) →
  options !! Z.to_nat (k - 1) = Some option →
  get_user_selection options prompt (mkWorld (bad ++ good :: rest) out f o)
  = (Ok option,
     mkWorld rest
       (out ++ [prompt +:+ nl] ++ numbered 1 options
        ++ retries (length options) bad
        ++ [choice_prompt (length options)])
       f o).
Proof.
  intros Hbad Hgood Hk Hopt.
  unfold get_user_selection. rewrite print_options_stdout. simpl.
  rewrite (selection_loop_accept options bad good rest k option) by done.
  simpl. by rewrite <- !app_assoc.
Qed.

(** C8. Menu selection turns down the line 0, any integer above the
    number of options and any text that is no integer, asking again after
    each; at the first line that is an integer k in 1..n it returns the
    k-th option, having read exactly the lines up to that one, and no
    failure surfaces. *)
Theorem get_user_selection_spec (options : list string) (prompt : string)
  (bad : list string) (good : string) (rest : list string) (k : Z)
  (out : list string) (f : FS) (o : list string) :
  Forall (rejected (length options)) bad →
  Py.int good = Some k → 1 ≤ k ≤ Z.of_nat (length options) →
  (∃ option,
     options !! Z.to_nat (k - 1) = Some option
     ∧ get_user_selection options prompt (mkWorld (bad ++ good :: rest) out f o)
       = (Ok option,
          mkWorld rest
            (out ++ [prompt +:+ nl] ++ numbered 1 options
             ++ retries (length options) bad
             ++ [choice_prompt (length options)])
            f o))
  ∧ rejected (length options) "0"
  ∧ (∀ line z, Py.int line = Some z → Z.of_nat (length options) < z →
       rejected (length options) line)
  ∧ (∀ line, Py.int line = None → rejected (length options) line).
Proof.
  intros Hbad Hgood Hk. split; [|split; [|split]].
  - destruct (lookup_choice options k Hk) as [option Hopt].
    exists option. split; [done|].
    by apply get_user_selection_accept with (k := k).
  - unfold rejected. simpl. lia.
  - intros line z Hz Hlt. unfold rejected. rewrite Hz. lia.
  - intros line Hz. unfold rejected. by rewrite Hz.
Qed.

Lemma get_user_selection_operations :
  (Forall (rejected (length operations)) ["x"; "0"; "10"; "2.5"; ""; fs_two]
   ∧ Py.int " 3 " = Some 3 ∧ 1 ≤ 3 ≤ Z.of_nat (length operations))
  ∧ get_user_selection operations "Choose"
      (mkWorld (["x"; "0"; "10"; "2.5"; ""; fs_two] ++ " 3 " :: ["users"]) [] empty_fs [])
    = (Ok "update",
       mkWorld ["users"]
         ([] ++ ["Choose" +:+ nl] ++ numbered 1 operations
          ++ retries (length operations) ["x"; "0"; "10"; "2.5"; ""; fs_two]
          ++ [choice_prompt (length operations)])
         empty_fs []).
Proof.
  assert (Forall (rejected (length operations)) ["x"; "0"; "10"; "2.5"; ""; fs_two])
    as Hbad.
  { repeat constructor; unfold rejected; simpl; lia. }
  assert (Py.int " 3 " = Some 3) as Hgood by reflexivity.
  assert (1 ≤ 3 ≤ Z.of_nat (length operations)) as Hk by (simpl; lia).
  split; [done|].
  destruct (get_user_selection_spec operations "Choose"
              ["x"; "0"; "10"; "2.5"; ""; fs_two] " 3 " ["users"] 3 [] empty_fs []
              Hbad Hgood Hk) as [(option & Hopt & ->) _].
  simpl in Hopt. by injection Hopt as <-.
Defined.

(** What [int()] takes for a numeral: white space around it, but not the
    separators U+001C..U+001F that [str.strip] drops; one sign; single
    underscores between digits; at most 4300 digits, leading zeros
    counted. *)
Example int_edges :
  Py.int fs_two = None ∧ Py.strip fs_two = "2"
  ∧ Py.int (" 2" +:+ String (ascii_of_N 160) "") = Some 2
  ∧ Py.int "+1_0" = Some 10 ∧ Py.int "1__0" = None ∧ Py.int "- 3" = None
  ∧ Py.int (zeros 4299 +:+ "7") = Some 7
  ∧ Py.int (zeros 4300 +:+ "7") = None.
Proof. repeat split; by vm_compute. Qed.

(** The answer to a line [int()] refuses is the invalid-input complaint,
    also when [str.strip] would leave a numeral. *)
Example complaint_separator :
  complaint 9 fs_two = "Invalid input, please enter a number." +:+ nl
  ∧ complaint 9 "0" = "Please enter a number between 1 and 9." +:+ nl
  ∧ complaint 9 "12" = "Please enter a number between 1 and 9." +:+ nl.
Proof. repeat split. Qed.

(** ** The driver *)

Lemma bind_ok {A B} (m : IO A) (k : A → IO B) (w w' : world) (a : A) :
  m w = (Ok a, w') → bind m k w = k a w'.
Proof. intros H. unfold bind. by rewrite H. Qed.

Lemma bind_raise {A B} (m : IO A) (k : A → IO B) (w w' : world) (e : exn) :
  m w = (Raise e, w') → bind m k w = (Raise e, w').
Proof. intros H. unfold bind. by rewrite H. Qed.

Lemma input_line (prompt line : string) (rest out : list string) (f : FS)
  (o : list string) :
  input prompt (mkWorld (line :: rest) out f o)
  = (Ok line, mkWorld rest (out ++ [prompt]) f o).
Proof. reflexivity. Qed.

Lemma print_out (s : string) (w : world) :
  print s w
  = (Ok tt, mkWorld (stdin w) (stdout w ++ [s +:+ nl]) (fs w) (opened w)).
Proof. reflexivity. Qed.

Lemma show_warning_out (w : world) :
  ∃ out', show_warning w = (Ok tt, mkWorld (stdin w) out' (fs w) (opened w)).
Proof. eexists. reflexivity. Qed.

Lemma name_loop_accept (prompt complaint line : string) (rest : list string)
  (w : world) :
  Py.strip line ≠ "" →
  name_loop prompt complaint (line :: rest) w
  = (Ok (Py.strip line),
     mkWorld rest (stdout w ++ [prompt]) (fs w) (opened w)).
Proof.
  intros Hname. simpl. by rewrite decide_False.
Qed.

Lemma ask_name_accept (prompt complaint line : string)
  (rest out : list string) (f : FS) (o : list string) :
  Py.strip line ≠ "" →
  ask_name prompt complaint (mkWorld (line :: rest) out f o)
  = (Ok (Py.strip line), mkWorld rest (out ++ [prompt]) f o).
Proof.
  intros Hname.
  exact (name_loop_accept prompt complaint line rest
           (mkWorld (line :: rest) out f o) Hname).
Qed.

Lemma split_not_nil (sep : ascii) (s : string) : Py.split sep s ≠ [].
Proof.
  destruct s as [|c r]; simpl; [done|].
  destruct (decide (c = sep)); [done|]. by destruct (Py.split sep r).
Qed.

Lemma join_cons_cons (sep x y : string) (l : list string) :
  Py.join sep (x :: y :: l) = x +:+ sep +:+ Py.join sep (y :: l).
Proof. reflexivity. Qed.

(** Splitting at the commas and joining with a comma and a blank puts a
    blank after every comma and changes nothing else. *)
Lemma join_split_comma (s : string) :
  Py.join ", " (Py.split "," s) = comma_space s.
Proof.
  induction s as [|c r IH]; [done|].
  pose proof (split_not_nil "," r) as Hne.
  simpl. destruct (decide (c = ","%char)) as [->|Hc].
  - destruct (Py.split "," r) as [|h t] eqn:E; [done|].
    rewrite join_cons_cons, IH. reflexivity.
  - destruct (Py.split "," r) as [|h t] eqn:E; [done|].
    rewrite <- IH. by destruct t.
Qed.

(** The loop takes the typed columns in order and stops at [done]. *)
Lemma columns_loop_entries (entries : list column_entry) (d : string)
  (rest : list string) (cols : list (string * string)) (w : world) :
  Forall (λ e, Py.lower (entry_name e) ≠ "done") entries →
  Py.lower d = "done" →
  ∃ out',
    columns_loop (flat_map entry_lines entries ++ d :: rest) cols w
    = (Ok (collected cols entries),
       mkWorld rest (stdout w ++ out') (fs w) (opened w)).
Proof.
  intros Hentries Hd. revert cols w.
  induction Hentries as [|e entries He Hentries IH]; intros cols w.
  - eexists. simpl. rewrite decide_True by done. reflexivity.
  - destruct e as [name type default key]. simpl in He.
    simpl. rewrite decide_False by done.
    edestruct IH as [out1 ->]. eexists. simpl.
    rewrite <- !app_assoc. reflexivity.
Qed.

(** Select the branch of [dispatch] for a literal operation. *)
Ltac pick_branch :=
  unfold dispatch;
  repeat (rewrite decide_False by done);
  try change (Py.contains _ ["insert"; "update"]) with false;
  cbv iota;
  try rewrite decide_True by done.

Section DriverProperties.

Variable realpath : string → string.
Variable read_csv read_excel : string → result DataFrame.

Local Abbreviation run := (main realpath read_csv read_excel).
Local Abbreviation dispatched := (dispatch realpath read_csv read_excel).

(** Up to the dispatch: the banner and the menu are printed, the choice
    and the table name are read. *)
Lemma main_dispatch (sel tl : string) (k : Z) (operation : string)
  (rest out : list string) (f : FS) (o : list string) :
  Py.int sel = Some k → 1 ≤ k ≤ 9 →
  operations !! Z.to_nat (k - 1) = Some operation →
  Py.strip tl ≠ "" →
  ∃ out',
    run (mkWorld (sel :: tl :: rest) out f o)
    = dispatched operation (Py.strip tl) (mkWorld rest out' f o).
Proof.
  intros Hsel Hk Hop Hname.
  destruct (show_warning_out (mkWorld (sel :: tl :: rest) out f o))
    as [out1 H1]. simpl in H1.
  eexists. unfold main.
  rewrite (bind_ok _ _ _ _ _ H1). simpl stdin. simpl fs. simpl opened.
  rewrite (bind_ok _ _ _ _ _
             (get_user_selection_accept operations _ [] sel (tl :: rest) k
                operation out1 f o (Forall_nil_2 _) Hsel Hk Hop)).
  rewrite (bind_ok _ _ _ _ _ (ask_name_accept _ _ tl rest _ f o Hname)).
  reflexivity.
Qed.

Lemma dispatch_select (table_name cols lim off cond : string)
  (rest out : list string) (f : FS) (o : list string) :
  ∃ out',
    dispatched "select" table_name
      (mkWorld (cols :: lim :: off :: cond :: rest) out f o)
    = (Ok tt,
       mkWorld rest
         (out' ++ [announcement
                     ("SELECT " +:+ Py.join ", " (Py.split "," (Py.strip cols))
                      +:+ " FROM " +:+ table_name +:+ " WHERE "
                      +:+ Py.strip cond +:+ " LIMIT "
                      +:+ or_default (Py.strip lim) "10" +:+ " OFFSET "
                      +:+ or_default (Py.strip off) "0" +:+ ";")])
         f o).
Proof.
  eexists. unfold dispatch. rewrite decide_True by done. reflexivity.
Qed.


Lemma dispatch_delete (table_name cond : string)
  (rest out : list string) (f : FS) (o : list string) :
  ∃ out',
    dispatched "delete" table_name (mkWorld (cond :: rest) out f o)
    = (Ok tt,
       mkWorld rest
         (out' ++ [announcement (delete_template table_name cond)]) f o).
Proof. eexists. reflexivity. Qed.

Lemma dispatch_create_table (table_name : string)
  (entries : list column_entry) (d : string)
  (rest out : list string) (f : FS) (o : list string) :
  Forall (λ e, Py.lower (entry_name e) ≠ "done") entries →
  Py.lower d = "done" →
  ∃ out',
    dispatched "create_table" table_name
      (mkWorld (flat_map entry_lines entries ++ d :: rest) out f o)
    = (Ok tt,
       mkWorld rest
         (out' ++ [announcement
                     (create_table_template table_name
                        (Py.repr_dict (collected [] entries)))])
         f o).
Proof.
  intros Hentries Hd.
  destruct (columns_loop_entries entries d rest []
              (mkWorld (flat_map entry_lines entries ++ d :: rest) out f o)
              Hentries Hd) as [out1 H1].
  eexists. pick_branch.
  erewrite bind_ok by exact H1. reflexivity.
Qed.

Lemma dispatch_drop_table (table_name : string)
  (rest out : list string) (f : FS) (o : list string) :
  ∃ out',
    dispatched "drop_table" table_name (mkWorld rest out f o)
    = (Ok tt,
       mkWorld rest (out' ++ [announcement (drop_table_template table_name)])
         f o).
Proof. exists out. reflexivity. Qed.

Lemma dispatch_alter_table (table_name alt : string)
  (rest out : list string) (f : FS) (o : list string) :
  ∃ out',
    dispatched "alter_table" table_name (mkWorld (alt :: rest) out f o)
    = (Ok tt,
       mkWorld rest
         (out' ++ [announcement (alter_table_template table_name alt)]) f o).
Proof. eexists. reflexivity. Qed.

Lemma dispatch_create_view (table_name vl sel_stmt : string)
  (rest out : list string) (f : FS) (o : list string) :
  Py.strip vl ≠ "" →
  ∃ out',
    dispatched "create_view" table_name
      (mkWorld (vl :: sel_stmt :: rest) out f o)
    = (Ok tt,
       mkWorld rest
         (out' ++ [announcement
                     (create_view_template (Py.strip vl) sel_stmt)]) f o).
Proof.
  intros Hname. eexists. pick_branch.
  erewrite bind_ok by (by apply ask_name_accept). reflexivity.
Qed.

Lemma dispatch_drop_view (table_name vl : string)
  (rest out : list string) (f : FS) (o : list string) :
  Py.strip vl ≠ "" →
  ∃ out',
    dispatched "drop_view" table_name (mkWorld (vl :: rest) out f o)
    = (Ok tt,
       mkWorld rest
         (out' ++ [announcement (drop_view_template (Py.strip vl))]) f o).
Proof.
  intros Hname. eexists. pick_branch.
  erewrite bind_ok by (by apply ask_name_accept). reflexivity.
Qed.

Lemma read_input_file_unsupported (file_path : string) (w : world) :
  Py.lower (os_path.splitext file_path).2 ∉ [".csv"; ".xls"; ".xlsx"] →
  read_input_file read_csv read_excel file_path w
  = (Raise (ValueError unsupported), w).
Proof.
  intros Hext. unfold read_input_file.
  rewrite decide_False by (intros E; apply Hext; rewrite E; set_solver).
  replace (Py.contains _ _) with false; [done|].
  symmetry. apply not_true_is_false. rewrite contains_true.
  intros Hin. apply Hext. by apply elem_of_cons; right.
Qed.

Lemma dispatch_unsupported (operation table_name p : string)
  (rest out : list string) (f : FS) (o : list string) :
  operation = "insert" ∨ operation = "update" →
  Py.lower (os_path.splitext (realpath p)).2 ∉ [".csv"; ".xls"; ".xlsx"] →
  ∃ out',
    dispatched operation table_name (mkWorld (p :: rest) out f o)
    = (Raise (ValueError unsupported), mkWorld rest out' f o).
Proof.
  intros Hop Hext. eexists.
  destruct Hop as [-> | ->]; unfold dispatch;
    rewrite decide_False by done;
    change (Py.contains _ ["insert"; "update"]) with true; cbv iota;
    rewrite (bind_ok _ _ _ _ _ (input_line _ p rest out f o));
    rewrite (bind_raise _ _ _ _ _ (read_input_file_unsupported _ _ Hext));
    reflexivity.
Qed.

(** C7. For a path whose lower-cased extension is none of .csv, .xls and
    .xlsx the reader raises the unsupported-format error instead of
    returning a table, and a run of the insert or update operation ends
    with that error: no further line is read, no reader is called and the
    file system is as it was. *)
Theorem unsupported_format_is_fatal (file_path : string) :
  Py.lower (os_path.splitext file_path).2 ∉ [".csv"; ".xls"; ".xlsx"] →
  (∀ w, read_input_file read_csv read_excel file_path w
        = (Raise (ValueError unsupported), w))
  ∧ (∀ sel k tl p rest out f o,
       Py.int sel = Some k → k = 2 ∨ k = 3 → Py.strip tl ≠ "" →
       realpath p = file_path →
       ∃ out',
         run (mkWorld (sel :: tl :: p :: rest) out f o)
         = (Raise (ValueError unsupported), mkWorld rest out' f o)).
Proof.
  intros Hext. split.
  - intros w. by apply read_input_file_unsupported.
  - intros sel k tl p rest out f o Hsel Hk Hname Hp.
    assert (∃ operation,
              operations !! Z.to_nat (k - 1) = Some operation
              ∧ (operation = "insert" ∨ operation = "update"))
      as (operation & Hlook & Hop).
    { destruct Hk as [-> | ->]; eexists; split; try reflexivity; auto. }
    destruct (main_dispatch sel tl k operation (p :: rest) out f o)
      as [out1 ->]; [done|lia|done|done|].
    apply dispatch_unsupported; [done|]. by rewrite Hp.
Qed.

(** Run the driver up to the dispatch, then one branch. *)
Ltac run_branch sel tl k operation rest out f o branch :=
  let out1 := fresh "out" in
  destruct (main_dispatch sel tl k operation rest out f o) as [out1 ->];
  [done || reflexivity | lia | reflexivity | done |];
  apply branch.

(** C5, as amended. Every free-form operation places its fragments in a
    fixed template without validation or escaping: the table and view
    names, and for SELECT the column list, limit, offset and condition,
    after trimming of surrounding white space; the DELETE condition, the
    ALTER clause and the SELECT statement of a view as typed.  Two
    fragments are rewritten: in the SELECT column list every comma gets a
    blank after it, and a blank limit or offset is replaced by its
    default.  CREATE TABLE places the [repr] of the collected dict. *)
Theorem free_form_templates (tl vl : string) (rest out : list string)
  (f : FS) (o : list string) :
  Py.strip tl ≠ "" → Py.strip vl ≠ "" →
  (∀ cols lim off cond, ∃ out',
     run (mkWorld ("1" :: tl :: cols :: lim :: off :: cond :: rest) out f o)
     = (Ok tt,
        mkWorld rest
          (out' ++ [announcement
                      (select_template (comma_space (Py.strip cols))
                         (Py.strip tl) (Py.strip cond)
                         (or_default (Py.strip lim) "10")
                         (or_default (Py.strip off) "0"))]) f o))
  ∧ (∀ cond, ∃ out',
       run (mkWorld ("4" :: tl :: cond :: rest) out f o)
       = (Ok tt,
          mkWorld rest
            (out' ++ [announcement (delete_template (Py.strip tl) cond)])
            f o))
  ∧ (∀ entries d,
       Forall (λ e, Py.lower (entry_name e) ≠ "done") entries →
       Py.lower d = "done" →
       ∃ out',
         run (mkWorld ("5" :: tl :: flat_map entry_lines entries ++ d :: rest)
                out f o)
         = (Ok tt,
            mkWorld rest
              (out' ++ [announcement
                          (create_table_template (Py.strip tl)
                             (Py.repr_dict (collected [] entries)))]) f o))
  ∧ (∃ out',
       run (mkWorld ("6" :: tl :: rest) out f o)
       = (Ok tt,
          mkWorld rest
            (out' ++ [announcement (drop_table_template (Py.strip tl))]) f o))
  ∧ (∀ alt, ∃ out',
       run (mkWorld ("7" :: tl :: alt :: rest) out f o)
       = (Ok tt,
          mkWorld rest
            (out' ++ [announcement (alter_table_template (Py.strip tl) alt)])
            f o))
  ∧ (∀ sel_stmt, ∃ out',
       run (mkWorld ("8" :: tl :: vl :: sel_stmt :: rest) out f o)
       = (Ok tt,
          mkWorld rest
            (out' ++ [announcement
                        (create_view_template (Py.strip vl) sel_stmt)]) f o))
  ∧ (∃ out',
       run (mkWorld ("9" :: tl :: vl :: rest) out f o)
       = (Ok tt,
          mkWorld rest
            (out' ++ [announcement (drop_view_template (Py.strip vl))]) f o)).
Proof.
  intros Htl Hvl. repeat split.
  - intros cols lim off cond. rewrite <- join_split_comma.
    run_branch "1" tl 1 "select" (cols :: lim :: off :: cond :: rest) out f o
      dispatch_select.
  - intros cond.
    run_branch "4" tl 4 "delete" (cond :: rest) out f o dispatch_delete.
  - intros entries d Hentries Hd.
    destruct (main_dispatch "5" tl 5 "create_table"
                (flat_map entry_lines entries ++ d :: rest) out f o)
      as [out1 ->]; [reflexivity|lia|reflexivity|done|].
    by apply dispatch_create_table.
  - run_branch "6" tl 6 "drop_table" rest out f o dispatch_drop_table.
  - intros alt.
    run_branch "7" tl 7 "alter_table" (alt :: rest) out f o
      dispatch_alter_table.
  - intros sel_stmt.
    destruct (main_dispatch "8" tl 8 "create_view" (vl :: sel_stmt :: rest)
                out f o) as [out1 ->]; [reflexivity|lia|reflexivity|done|].
    by apply dispatch_create_view.
  - destruct (main_dispatch "9" tl 9 "drop_view" (vl :: rest) out f o)
      as [out1 ->]; [reflexivity|lia|reflexivity|done|].
    by apply dispatch_drop_view.
Qed.

(** C6. In the SELECT operation a blank limit becomes 10 and a blank
    offset becomes 0, each on its own, while a typed one is placed
    trimmed; with table t, columns * and blank limit, offset and condition
    the statement is [SELECT * FROM t WHERE  LIMIT 10 OFFSET 0;]; the
    statement is printed, no reader is called and the file system is as
    it was. *)
Theorem select_defaults (sel tl cols lim off cond : string)
  (rest out : list string) (f : FS) (o : list string) :
  Py.int sel = Some 1 → Py.strip tl ≠ "" →
  (∃ limit offset out',
     run (mkWorld (sel :: tl :: cols :: lim :: off :: cond :: rest) out f o)
     = (Ok tt,
        mkWorld rest
          (out' ++ [announcement
                      ("SELECT " +:+ Py.join ", " (Py.split "," (Py.strip cols))
                       +:+ " FROM " +:+ Py.strip tl +:+ " WHERE "
                       +:+ Py.strip cond +:+ " LIMIT " +:+ limit
                       +:+ " OFFSET " +:+ offset +:+ ";")]) f o)
     ∧ (Py.strip lim = "" → limit = "10")
     ∧ (Py.strip lim ≠ "" → limit = Py.strip lim)
     ∧ (Py.strip off = "" → offset = "0")
     ∧ (Py.strip off ≠ "" → offset = Py.strip off))
  ∧ (∃ out',
       run (start ["1"; "t"; "*"; ""; ""; ""])
       = (Ok tt,
          mkWorld []
            (out' ++ [announcement "SELECT * FROM t WHERE  LIMIT 10 OFFSET 0;"])
            empty_fs [])).
Proof.
  intros Hsel Htl. split.
  - destruct (main_dispatch sel tl 1 "select"
                (cols :: lim :: off :: cond :: rest) out f o)
      as [out1 ->]; [done|lia|reflexivity|done|].
    destruct (dispatch_select (Py.strip tl) cols lim off cond rest out1 f o)
      as [out2 ->].
    exists (or_default (Py.strip lim) "10"), (or_default (Py.strip off) "0"),
      out2.
    split; [reflexivity|]. unfold or_default.
    split; [intros H; by rewrite decide_True|].
    split; [intros H; by rewrite decide_False|].
    split; [intros H; by rewrite decide_True|].
    intros H; by rewrite decide_False.
  - unfold start.
    destruct (main_dispatch "1" "t" 1 "select" ["*"; ""; ""; ""] []
                empty_fs []) as [out1 ->]; [reflexivity|lia|reflexivity|done|].
    destruct (dispatch_select (Py.strip "t") "*" "" "" "" [] out1 empty_fs [])
      as [out2 ->].
    exists out2. reflexivity.
Qed.

(** C10. The CREATE TABLE statement carries the [repr] of the collected
    column dict, braces, quoted names and colons included, not a
    comma-joined list of column definitions: the column id of type INT
    with key PRIMARY KEY and no default gives
    [CREATE TABLE t ({'id': 'INT PRIMARY KEY '});], and no column before
    [done] gives [CREATE TABLE <table> ({});]. *)
Theorem create_table_repr (tl : string) (entries : list column_entry)
  (d : string) (rest out : list string) (f : FS) (o : list string) :
  Py.strip tl ≠ "" →
  Forall (λ e, Py.lower (entry_name e) ≠ "done") entries →
  Py.lower d = "done" →
  (∃ out',
     run (mkWorld ("5" :: tl :: flat_map entry_lines entries ++ d :: rest)
            out f o)
     = (Ok tt,
        mkWorld rest
          (out' ++ [announcement
                      ("CREATE TABLE " +:+ Py.strip tl +:+ " ("
                       +:+ Py.repr_dict (collected [] entries) +:+ ");")])
          f o))
  ∧ (∃ out',
       run (mkWorld ("5" :: tl :: d :: rest) out f o)
       = (Ok tt,
          mkWorld rest
            (out' ++ [announcement
                        ("CREATE TABLE " +:+ Py.strip tl +:+ " ({});")])
            f o))
  ∧ (∃ out',
       run (start ["5"; "t"; "id"; "INT"; ""; "PRIMARY KEY"; "done"])
       = (Ok tt,
          mkWorld []
            (out' ++ [announcement
                        "CREATE TABLE t ({'id': 'INT PRIMARY KEY '});"])
            empty_fs [])).
Proof.
  intros Htl Hentries Hd. repeat split.
  - destruct (main_dispatch "5" tl 5 "create_table"
                (flat_map entry_lines entries ++ d :: rest) out f o)
      as [out1 ->]; [reflexivity|lia|reflexivity|done|].
    by apply dispatch_create_table.
  - destruct (main_dispatch "5" tl 5 "create_table" (d :: rest) out f o)
      as [out1 ->]; [reflexivity|lia|reflexivity|done|].
    by apply (dispatch_create_table (Py.strip tl) [] d rest out1 f o).
  - unfold start.
    destruct (main_dispatch "5" "t" 5 "create_table"
                ["id"; "INT"; ""; "PRIMARY KEY"; "done"] [] empty_fs [])
      as [out1 ->]; [reflexivity|lia|reflexivity|done|].
    by apply (dispatch_create_table (Py.strip "t")
                [mkEntry "id" "INT" "" "PRIMARY KEY"] "done" [] out1
                empty_fs []); [repeat constructor|].
Qed.

End DriverProperties.

(** ** Concrete runs *)

Lemma prefixb_spec (frag s : string) :
  prefixb frag s = true ↔ ∃ post, s = frag +:+ post.
Proof.
  revert s. induction frag as [|a frag IH]; intros s.
  - split; [|done]. intros _. by exists s.
  - destruct s as [|b s].
    + split; [done|]. by intros [post [=]].
    + simpl. rewrite andb_true_iff, bool_decide_eq_true, IH. split.
      * intros [-> [post ->]]. by exists post.
      * intros [post [= -> ->]]. split; [done|]. by exists post.
Qed.

(** [occursb] decides whether a text occurs inside another one. *)
Lemma occursb_spec (frag s : string) :
  occursb frag s = true ↔ ∃ pre post, s = pre +:+ frag +:+ post.
Proof.
  induction s as [|b s IH].
  - simpl. rewrite orb_false_r, prefixb_spec. split.
    + intros [post ->]. by exists "", post.
    + intros [[|x pre] [post E]]; [by exists post|done].
  - cbn [occursb]. rewrite orb_true_iff, prefixb_spec, IH. split.
    + intros [[post ->] | (pre & post & ->)].
      * by exists "", post.
      * by exists (String b pre), post.
    + intros [[|x pre] [post E]].
      * left. by exists post.
      * right. rewrite append_cons in E. injection E as -> ->.
        by exists pre, post.
Qed.

(** C5 does not hold as stated: a SELECT run with the column list [a,b]
    prints a statement that differs from the template filled with the
    typed fragments, and the typed column list does not occur in it. *)
Lemma select_columns_rewritten :
  printed (main id no_reader no_reader
             (start ["1"; "t"; "a,b"; "5"; "0"; "x=1"]))
  = Some (announcement "SELECT a, b FROM t WHERE x=1 LIMIT 5 OFFSET 0;")
  ∧ "SELECT a, b FROM t WHERE x=1 LIMIT 5 OFFSET 0;"
    ≠ select_template "a,b" "t" "x=1" "5" "0"
  ∧ occursb "a,b" "SELECT a, b FROM t WHERE x=1 LIMIT 5 OFFSET 0;" = false.
Proof.
  split; [by vm_compute|]. split; [|by vm_compute].
  vm_compute. by intros [=].
Qed.

Lemma free_form_templates_drop_table :
  (Py.strip " users " ≠ "" ∧ Py.strip "v" ≠ "")
  ∧ ∃ out',
      main id no_reader no_reader (mkWorld ["6"; " users "] [] empty_fs [])
      = (Ok tt,
         mkWorld [] (out' ++ [announcement "DROP TABLE IF EXISTS users;"])
           empty_fs []).
Proof.
  assert (Py.strip " users " ≠ "") as H1 by (vm_compute; by intros [=]).
  assert (Py.strip "v" ≠ "") as H2 by (vm_compute; by intros [=]).
  split; [done|].
  destruct (free_form_templates id no_reader no_reader " users " "v" [] []
              empty_fs [] H1 H2) as (_ & _ & _ & H & _).
  exact H.
Defined.

Lemma select_defaults_blank :
  (Py.int "1" = Some 1 ∧ Py.strip "t" ≠ "")
  ∧ ∃ limit offset out',
      main id no_reader no_reader
        (mkWorld ["1"; "t"; "id,name"; "  "; " 5 "; "id > 3"] [] empty_fs [])
      = (Ok tt,
         mkWorld []
           (out' ++ [announcement
                       ("SELECT " +:+ Py.join ", "
                                        (Py.split "," (Py.strip "id,name"))
                        +:+ " FROM " +:+ Py.strip "t" +:+ " WHERE "
                        +:+ Py.strip "id > 3" +:+ " LIMIT " +:+ limit
                        +:+ " OFFSET " +:+ offset +:+ ";")]) empty_fs [])
      ∧ (Py.strip "  " = "" → limit = "10")
      ∧ (Py.strip "  " ≠ "" → limit = Py.strip "  ")
      ∧ (Py.strip " 5 " = "" → offset = "0")
      ∧ (Py.strip " 5 " ≠ "" → offset = Py.strip " 5 ").
Proof.
  assert (Py.strip "t" ≠ "") as H1 by (vm_compute; by intros [=]).
  split; [done|].
  destruct (select_defaults id no_reader no_reader "1" "t" "id,name" "  "
              " 5 " "id > 3" [] [] empty_fs [] eq_refl H1) as [H _].
  exact H.
Defined.

Lemma unsupported_format_txt :
  ((Py.lower (os_path.splitext "/data/users.TXT").2
    ∉ [".csv"; ".xls"; ".xlsx"])
   ∧ Py.int "2" = Some 2 ∧ Py.strip "users" ≠ "")
  ∧ ∃ out',
      main id (λ _, Ok users) (λ _, Ok users)
        (mkWorld ["2"; "users"; "/data/users.TXT"; "again"] [] empty_fs [])
      = (Raise (ValueError unsupported), mkWorld ["again"] out' empty_fs []).
Proof.
  assert (Py.lower (os_path.splitext "/data/users.TXT").2
          ∉ [".csv"; ".xls"; ".xlsx"]) as H0.
  { intros Hin. rewrite !elem_of_cons, elem_of_nil in Hin.
    vm_compute in Hin. by destruct Hin as [[=] | [[=] | [[=] | []]]]. }
  assert (Py.strip "users" ≠ "") as H1 by (vm_compute; by intros [=]).
  split; [done|].
  destruct (unsupported_format_is_fatal id (λ _, Ok users) (λ _, Ok users)
              "/data/users.TXT" H0) as [_ H].
  exact (H "2" 2 "users" "/data/users.TXT" ["again"] [] empty_fs []
           eq_refl (or_introl eq_refl) H1 eq_refl).
Defined.

Lemma create_table_repr_two_columns :
  (Py.strip "t" ≠ ""
   ∧ Forall (λ e, Py.lower (entry_name e) ≠ "done")
       [mkEntry "id" "INT" "" "PRIMARY KEY"; mkEntry "name" "TEXT" "'x'" ""]
   ∧ Py.lower "DONE" = "done")
  ∧ ∃ out',
      main id no_reader no_reader
        (mkWorld ["5"; "t"; "id"; "INT"; ""; "PRIMARY KEY";
                  "name"; "TEXT"; "'x'"; ""; "DONE"] [] empty_fs [])
      = (Ok tt,
         mkWorld []
           (out' ++ [announcement
                       ("CREATE TABLE t ("
                        +:+ Py.repr_dict
                              [("id", "INT PRIMARY KEY ");
                               ("name", "TEXT  DEFAULT 'x'")]
                        +:+ ");")])
           empty_fs []).
Proof.
  assert (Py.strip "t" ≠ "") as H1 by (vm_compute; by intros [=]).
  assert (Forall (λ e, Py.lower (entry_name e) ≠ "done")
            [mkEntry "id" "INT" "" "PRIMARY KEY";
             mkEntry "name" "TEXT" "'x'" ""]) as H2.
  { repeat constructor; vm_compute; by intros [=]. }
  split; [done|].
  destruct (create_table_repr id no_reader no_reader "t"
              [mkEntry "id" "INT" "" "PRIMARY KEY";
               mkEntry "name" "TEXT" "'x'" ""] "DONE" [] [] empty_fs []
              H1 H2 eq_refl) as [H _].
  exact H.
Defined.

(** ** Paths *)

Lemma take_drop (n : nat) (s : string) : Py.take n s +:+ Py.drop n s = s.
Proof.
  revert s. induction n as [|n IH]; intros [|c s]; try done.
  simpl. rewrite append_cons. by rewrite IH.
Qed.

Lemma has_char_app (c : ascii) (a b : string) :
  Py.has_char c (a +:+ b) = Py.has_char c a || Py.has_char c b.
Proof.
  induction a as [|x a IH]; [done|].
  rewrite append_cons. simpl. rewrite IH. by rewrite orb_assoc.
Qed.

Lemma rfind_lower_bound (c : ascii) (s : string) : -1 ≤ Py.rfind c s.
Proof.
  induction s as [|a s IH]; simpl; [lia|].
  destruct (0 <=? Py.rfind c s) eqn:E; [lia|]. destruct (decide (a = c)); lia.
Qed.

Lemma rfind_absent (c : ascii) (s : string) :
  Py.rfind c s = -1 ↔ Py.has_char c s = false.
Proof.
  induction s as [|a s IH]; simpl; [done|].
  pose proof (rfind_lower_bound c s) as Hlb.
  rewrite orb_false_iff, bool_decide_eq_false, <- IH.
  destruct (0 <=? Py.rfind c s) eqn:E.
  - apply Z.leb_le in E. lia.
  - apply Z.leb_gt in E. destruct (decide (a = c)); split; try lia.
    + intros [? _]. done.
    + intros _. split; [done|lia].
Qed.

(** Nothing after the last occurrence holds the character. *)
Lemma drop_after_rfind (c : ascii) (s : string) :
  Py.has_char c (Py.drop (Z.to_nat (Py.rfind c s + 1)) s) = false.
Proof.
  induction s as [|a s IH]; [done|].
  pose proof (rfind_lower_bound c s) as Hlb. simpl Py.rfind.
  destruct (0 <=? Py.rfind c s) eqn:E.
  - apply Z.leb_le in E.
    replace (Z.to_nat (Py.rfind c s + 1 + 1))
      with (S (Z.to_nat (Py.rfind c s + 1))) by lia.
    exact IH.
  - apply Z.leb_gt in E. assert (Py.rfind c s = -1) as Hnone by lia.
    apply rfind_absent in Hnone.
    destruct (decide (a = c)) as [->|Hne]; simpl; [done|].
    rewrite Hnone. by rewrite bool_decide_eq_false_2.
Qed.

(** The text from the last occurrence on starts with the character and
    does not hold it again. *)
Lemma drop_at_rfind (c : ascii) (s : string) :
  0 ≤ Py.rfind c s →
  ∃ e, Py.drop (Z.to_nat (Py.rfind c s)) s = String c e
       ∧ Py.has_char c e = false.
Proof.
  induction s as [|a s IH]; simpl Py.rfind; [lia|].
  pose proof (rfind_lower_bound c s) as Hlb.
  destruct (0 <=? Py.rfind c s) eqn:E.
  - apply Z.leb_le in E. intros _.
    replace (Z.to_nat (Py.rfind c s + 1))
      with (S (Z.to_nat (Py.rfind c s))) by lia.
    by apply IH.
  - apply Z.leb_gt in E. assert (Py.rfind c s = -1) as Hnone by lia.
    apply rfind_absent in Hnone.
    destruct (decide (a = c)) as [->|Hne]; [|lia].
    intros _. by exists s.
Qed.

Lemma basename_no_sep (p : string) :
  Py.has_char "/" (os_path.basename p) = false.
Proof. apply drop_after_rfind. Qed.

Lemma splitext_scan_parts (p : string) (i n dotIndex : nat) :
  os_path.splitext_scan p i n dotIndex = (p, "")
  ∨ os_path.splitext_scan p i n dotIndex
    = (Py.take dotIndex p, Py.drop dotIndex p).
Proof.
  revert i. induction n as [|n IH]; intros i; simpl; [by left|].
  destruct (decide (Py.get i p = Some "."%char)); [apply IH|by right].
Qed.

(** [splitext] cuts the path in two; the extension is empty or starts at
    the last dot. *)
Lemma splitext_parts (p : string) :
  ∃ root ext,
    os_path.splitext p = (root, ext)
    ∧ root +:+ ext = p
    ∧ (ext = "" ∨ ∃ e, ext = String "." e ∧ Py.has_char "." e = false).
Proof.
  unfold os_path.splitext.
  pose proof (rfind_lower_bound "/" p) as Hsep.
  destruct (Py.rfind "/" p <? Py.rfind "." p) eqn:E.
  - apply Z.ltb_lt in E.
    destruct (splitext_scan_parts p (Z.to_nat (Py.rfind "/" p + 1))
                (Z.to_nat (Py.rfind "." p - (Py.rfind "/" p + 1)))
                (Z.to_nat (Py.rfind "." p))) as [-> | ->].
    + exists p, "". split; [done|]. split; [apply append_nil_r|by left].
    + eexists _, _. split; [done|]. split; [apply take_drop|].
      right. apply drop_at_rfind. lia.
  - exists p, "". split; [done|]. split; [apply append_nil_r|by left].
Qed.

Lemma startswith_sep_has_char (s : string) :
  Py.has_char "/" s = false → os_path.startswith_sep s = false.
Proof.
  destruct s as [|a s]; [done|]. simpl.
  rewrite orb_false_iff, bool_decide_eq_false. intros [Hne _].
  destruct a as [[] [] [] [] [] [] [] []]; try done.
Qed.

Lemma get_output_file_name_no_sep (input_file : string) :
  Py.has_char "/" (get_output_file_name input_file) = false.
Proof.
  unfold get_output_file_name.
  destruct (splitext_parts (os_path.basename input_file))
    as (root & ext & -> & Hparts & _).
  pose proof (basename_no_sep input_file) as Hbase.
  rewrite <- Hparts, has_char_app in Hbase.
  apply orb_false_iff in Hbase as [Hroot _].
  simpl. rewrite has_char_app, Hroot. reflexivity.
Qed.

Lemma join_storage (name : string) :
  Py.has_char "/" name = false →
  os_path.join "./storage" name = "./storage/" +:+ name.
Proof.
  intros Hname. unfold os_path.join.
  by rewrite startswith_sep_has_char.
Qed.

Lemma rfind_app_absent (c : ascii) (a b : string) :
  Py.has_char c b = false → Py.rfind c (a +:+ b) = Py.rfind c a.
Proof.
  intros Hb. induction a as [|x a IH].
  - by apply rfind_absent.
  - rewrite append_cons. simpl. by rewrite IH.
Qed.

Lemma dirname_storage (name : string) :
  Py.has_char "/" name = false →
  os_path.dirname ("./storage/" +:+ name) = "./storage".
Proof.
  intros Hname. unfold os_path.dirname.
  rewrite rfind_app_absent by done. reflexivity.
Qed.

(** ** The output writer *)

Lemma storage_path_ne (name : string) : "./storage/" +:+ name ≠ "./storage".
Proof. by intros [=]. Qed.

Lemma write_file_storage (name content : string) (f : FS) :
  Py.has_char "/" name = false →
  "./storage" ∈ dirs f →
  "./storage/" +:+ name ∉ dirs f →
  write_file ("./storage/" +:+ name) content f
  = Ok (mkFS (dirs f) (<["./storage/" +:+ name := content]> (files f))).
Proof.
  intros Hname Hdir Hfree. unfold write_file.
  rewrite bool_decide_eq_false_2 by done.
  rewrite dirname_storage by done.
  rewrite (bool_decide_eq_true_2 ("./storage" ∈ dirs f)) by done.
  by rewrite orb_true_r.
Qed.

(** One call of the writer on a world in which [./storage] is no regular
    file and the target is no directory. *)
Lemma on_fs_ok (act : FS → result FS) (w : world) (f' : FS) :
  act (fs w) = Ok f' → on_fs act w = (Ok tt, set_fs f' w).
Proof. intros H. unfold on_fs. by rewrite H. Qed.

Lemma makedirs_fresh (p : string) (f : FS) :
  path_exists f p = false →
  makedirs p f = Ok (mkFS ({[p]} ∪ dirs f) (files f)).
Proof. intros H. unfold makedirs. by rewrite H. Qed.

Lemma write_queries_to_file_ok (query name : string) (w : world) :
  Py.has_char "/" name = false →
  files (fs w) !! "./storage" = None →
  "./storage/" +:+ name ∉ dirs (fs w) →
  write_queries_to_file query name w
  = (Ok tt,
     mkWorld (stdin w)
       (stdout w
        ++ ["SQL queries have been written to " +:+ "./storage/" +:+ name
            +:+ nl])
       (mkFS ({["./storage"]} ∪ dirs (fs w))
          (<["./storage/" +:+ name := query +:+ nl +:+ nl]> (files (fs w))))
       (opened w)).
Proof.
  intros Hname Hfile Hfree. destruct w as [i out [d fl] o].
  cbn [fs files dirs stdin stdout opened] in *.
  unfold write_queries_to_file. rewrite join_storage by done.
  unfold bind at 1. cbn [fs]. unfold path_exists at 1. cbn [files dirs].
  rewrite Hfile.
  rewrite (bool_decide_eq_false_2 (is_Some None)) by (by intros [? [=]]).
  rewrite orb_false_r.
  destruct (decide ("./storage" ∈ d)) as [Hin|Hnotin].
  - rewrite (bool_decide_eq_true_2 _ Hin). cbn [negb].
    rewrite (bind_ok _ _ _ _ tt (eq_refl _)).
    erewrite bind_ok
      by (apply on_fs_ok; cbn [fs]; by apply write_file_storage).
    rewrite print_out. unfold set_fs. cbn [fs files dirs stdin stdout opened].
    rewrite !append_assoc. do 3 f_equal.
    symmetry. apply subseteq_union_1_L. by apply singleton_subseteq_l.
  - rewrite (bool_decide_eq_false_2 _ Hnotin). cbn [negb].
    erewrite bind_ok.
    2:{ apply on_fs_ok. cbn [fs]. apply makedirs_fresh.
        unfold path_exists. cbn [files dirs]. rewrite Hfile.
        rewrite (bool_decide_eq_false_2 _ Hnotin).
        by rewrite (bool_decide_eq_false_2 (is_Some None))
          by (by intros [? [=]]). }
    unfold set_fs. cbn [fs files dirs stdin stdout opened].
    erewrite bind_ok.
    2:{ apply on_fs_ok. cbn [fs]. apply write_file_storage; [done|..];
        cbn [dirs]; rewrite elem_of_union, elem_of_singleton; [by left|].
        intros [E|E]; [by apply storage_path_ne in E|done]. }
    rewrite print_out. unfold set_fs. cbn [fs files dirs stdin stdout opened].
    by rewrite !append_assoc.
Qed.

(** C9. The default output name is the base name of the input with its
    extension cut off and .sql put after it, and the file is written to
    [./storage/<that name>].  The writer creates [./storage] when it is
    missing and leaves it alone when it is there, so a second call does
    not fail on the directory; each call leaves the file holding the
    statement text followed by two newlines, whatever it held before. *)
Theorem output_file_written (input_file query query2 : string) (w : world) :
  files (fs w) !! "./storage" = None →
  "./storage/" +:+ get_output_file_name input_file ∉ dirs (fs w) →
  (∃ root ext,
     os_path.splitext (os_path.basename input_file) = (root, ext)
     ∧ root +:+ ext = os_path.basename input_file
     ∧ (ext = "" ∨ ∃ e, ext = String "." e ∧ Py.has_char "." e = false)
     ∧ get_output_file_name input_file = root +:+ ".sql")
  ∧ os_path.join "./storage" (get_output_file_name input_file)
    = "./storage/" +:+ get_output_file_name input_file
  ∧ ∃ w1 w2,
      write_queries_to_file query (get_output_file_name input_file) w
      = (Ok tt, w1)
      ∧ dirs (fs w1) = {["./storage"]} ∪ dirs (fs w)
      ∧ files (fs w1)
        = <["./storage/" +:+ get_output_file_name input_file
            := query +:+ nl +:+ nl]> (files (fs w))
      ∧ write_queries_to_file query2 (get_output_file_name input_file) w1
        = (Ok tt, w2)
      ∧ dirs (fs w2) = dirs (fs w1)
      ∧ files (fs w2)
        = <["./storage/" +:+ get_output_file_name input_file
            := query2 +:+ nl +:+ nl]> (files (fs w)).
Proof.
  intros Hfile Hfree.
  pose proof (get_output_file_name_no_sep input_file) as Hname.
  split; [|split].
  - destruct (splitext_parts (os_path.basename input_file))
      as (root & ext & Hsplit & Hparts & Hext).
    exists root, ext. repeat split; try done.
    unfold get_output_file_name. by rewrite Hsplit.
  - by apply join_storage.
  - eexists _, _. split; [by apply write_queries_to_file_ok|].
    cbn [fs dirs files]. split; [done|]. split; [done|].
    rewrite write_queries_to_file_ok; cbn [fs dirs files].
    + split; [done|]. split; [|by rewrite insert_insert_eq].
      apply subseteq_union_1_L, singleton_subseteq_l.
      apply elem_of_union. left. by apply elem_of_singleton.
    + done.
    + rewrite lookup_insert_ne by apply storage_path_ne. done.
    + rewrite elem_of_union, elem_of_singleton.
      intros [E|E]; [by apply storage_path_ne in E|done].
Qed.

Lemma output_file_written_users :
  (files (fs (start [])) !! "./storage" = None
   ∧ "./storage/" +:+ get_output_file_name "/data/users.csv"
     ∉ dirs (fs (start [])))
  ∧ get_output_file_name "/data/users.csv" = "users.sql"
  ∧ ∃ w1 w2,
      write_queries_to_file "a;" (get_output_file_name "/data/users.csv")
        (start [])
      = (Ok tt, w1)
      ∧ write_queries_to_file "b;" (get_output_file_name "/data/users.csv") w1
        = (Ok tt, w2)
      ∧ files (fs w2)
        = <["./storage/" +:+ get_output_file_name "/data/users.csv"
            := "b;" +:+ nl +:+ nl]> (files (fs (start []))).
Proof.
  assert (files (fs (start [])) !! "./storage" = None) as H1 by apply lookup_empty.
  assert ("./storage/" +:+ get_output_file_name "/data/users.csv"
          ∉ dirs (fs (start []))) as H2 by apply not_elem_of_empty.
  split; [exact (conj H1 H2)|]. split; [reflexivity|].
  destruct (output_file_written "/data/users.csv" "a;" "b;" (start []) H1 H2)
    as (_ & _ & w1 & w2 & Ha & _ & _ & Hb & _ & Hc).
  exists w1, w2. split; [exact Ha|]. split; [exact Hb|exact Hc].
Defined.

(** ** More on the menu *)

Lemma selection_loop_outcome (options lines : list string) (w : world) :
  match (selection_loop options lines w).1 with
  | Ok option => option ∈ options
  | Raise e => e = EOFError
  end
  ∧ fs (selection_loop options lines w).2 = fs w
  ∧ opened (selection_loop options lines w).2 = opened w.
Proof.
  revert w. induction lines as [|line lines IH]; intros w; [done|].
  cbn [selection_loop].
  assert (∀ w', fs w' = fs w → opened w' = opened w →
            match (selection_loop options lines w').1 with
            | Ok option => option ∈ options
            | Raise e => e = EOFError
            end
            ∧ fs (selection_loop options lines w').2 = fs w
            ∧ opened (selection_loop options lines w').2 = opened w) as Hstep.
  { intros w' Hfs Hop. destruct (IH w') as (H1 & H2 & H3).
    split; [exact H1|]. by rewrite H2, H3. }
  destruct (Py.int line) as [choice|]; [|by apply Hstep].
  destruct ((1 <=? choice) && (choice <=? Z.of_nat (length options))) eqn:E;
    [|by apply Hstep].
  apply andb_true_iff in E as [E1%Z.leb_le E2%Z.leb_le].
  destruct (lookup_choice options choice (conj E1 E2)) as [option Hopt].
  rewrite Hopt. split; [|done]. cbn [fst].
  eapply list_elem_of_lookup_2, Hopt.
Qed.


Lemma selection_loop_exhausted (options lines : list string) (w : world) :
  Forall (rejected (length options)) lines →
  selection_loop options lines w
  = (Raise EOFError,
     mkWorld []
       (stdout w ++ retries (length options) lines
        ++ [choice_prompt (length options)])
       (fs w) (opened w)).
Proof.
  intros Hbad. revert w.
  induction Hbad as [|line lines Hline Hbad IH]; intros w; [done|].
  cbn [selection_loop]. unfold rejected in Hline.
  cbn [retries flat_map]. unfold complaint at 1.
  destruct (Py.int line) as [z|] eqn:Hz.
  - replace ((1 <=? z) && (z <=? Z.of_nat (length options))) with false
      by (symmetry; apply andb_false_iff; lia).
    rewrite IH. cbn. by rewrite <- !app_assoc, !append_assoc.
  - rewrite IH. cbn. by rewrite <- !app_assoc.
Qed.

(** X2. When every typed line is turned down, the menu returns no option:
    it reads all the lines, answers each with its complaint and a new
    prompt, and ends with the end-of-input error. *)
Theorem get_user_selection_exhausted (options : list string)
  (prompt : string) (lines out : list string) (f : FS) (o : list string) :
  Forall (rejected (length options)) lines →
  get_user_selection options prompt (mkWorld lines out f o)
  = (Raise EOFError,
     mkWorld []
       (out ++ [prompt +:+ nl] ++ numbered 1 options
        ++ retries (length options) lines
        ++ [choice_prompt (length options)])
       f o).
Proof.
  intros Hbad. unfold get_user_selection. rewrite print_options_stdout.
  cbn [stdin]. rewrite selection_loop_exhausted by done.
  cbn. by rewrite <- !app_assoc.
Qed.

Lemma get_user_selection_exhausted_operations :
  Forall (rejected (length operations)) ["select"; "-1"; "1 2"; "10"; fs_two]
  ∧ get_user_selection operations "Choose"
      (mkWorld ["select"; "-1"; "1 2"; "10"; fs_two] [] empty_fs [])
    = (Raise EOFError,
       mkWorld []
         ([] ++ ["Choose" +:+ nl] ++ numbered 1 operations
          ++ retries (length operations) ["select"; "-1"; "1 2"; "10"; fs_two]
          ++ [choice_prompt (length operations)])
         empty_fs []).
Proof.
  assert (Forall (rejected (length operations)) ["select"; "-1"; "1 2"; "10"; fs_two])
    as Hbad.
  { repeat constructor; unfold rejected; cbn; lia. }
  split; [exact Hbad|].
  exact (get_user_selection_exhausted operations "Choose"
           ["select"; "-1"; "1 2"; "10"; fs_two] [] empty_fs [] Hbad).
Defined.

(** ** Numerals: [str] of an integer and [int] of a text *)

Lemma all_chars_app (P : ascii → bool) (a b : string) :
  all_chars P (a +:+ b) = all_chars P a && all_chars P b.
Proof.
  induction a as [|c a IH]; [done|].
  rewrite append_cons. cbn. rewrite IH. by rewrite andb_assoc.
Qed.

Lemma numeral_char_plain (c : ascii) :
  numeral_char c = true → Py.isspace c = false ∧ Py.isupper c = false.
Proof. destruct c as [[] [] [] [] [] [] [] []]; by cbv. Qed.

Lemma pretty_N_char_digit (r : N) :
  (r < 10)%N →
  Py.digit (pretty_N_char r) = Some (Z.of_N r)
  ∧ pretty_N_char r ≠ "_"%char ∧ pretty_N_char r ≠ "-"%char
  ∧ pretty_N_char r ≠ "+"%char.
Proof.
  intros Hr.
  assert (r = 0 ∨ r = 1 ∨ r = 2 ∨ r = 3 ∨ r = 4 ∨ r = 5 ∨ r = 6 ∨ r = 7
          ∨ r = 8 ∨ r = 9)%N as Hcases by lia.
  repeat (destruct Hcases as [-> | Hcases]); try subst r; by cbv.
Qed.

(** The digits [pretty] writes: they are numeral characters, and reading
    them back continues the number read so far. *)
Lemma pretty_N_go_digits (x : N) :
  (0 < x)%N →
  ∀ s,
    (all_chars numeral_char s = true →
     all_chars numeral_char (pretty_N_go x s) = true)
    ∧ (∃ c r, pretty_N_go x s = String c r ∧ c ≠ "-"%char ∧ c ≠ "+"%char)
    ∧ ∃ m, ∀ acc seen,
        Py.int_digits acc seen (pretty_N_go x s)
        = Py.int_digits (acc * m + Z.of_N x) true s.
Proof.
  induction (N.lt_wf_0 x) as [x _ IH]. intros Hx s.
  rewrite pretty_N_go_step by done.
  destruct (pretty_N_char_digit (x `mod` 10)%N) as (Hd & Hu & Hm & Hp);
    [by apply N.mod_lt|].
  assert (numeral_char (pretty_N_char (x `mod` 10)) = true) as Hnum.
  { unfold numeral_char. rewrite Hd.
    rewrite (bool_decide_eq_true_2 (is_Some _)) by done. apply orb_true_r. }
  assert (∀ acc seen,
            Py.int_digits acc seen (String (pretty_N_char (x `mod` 10)) s)
            = Py.int_digits (10 * acc + Z.of_N (x `mod` 10)) true s) as Hone.
  { intros acc seen. cbn [Py.int_digits].
    rewrite decide_False by done. by rewrite Hd. }
  destruct (decide (x `div` 10 = 0)%N) as [Hz|Hnz].
  - rewrite Hz, pretty_N_go_0. split; [|split].
    + intros Hs. cbn. by rewrite Hnum, Hs.
    + by eexists _, _.
    + exists 10. intros acc seen. rewrite Hone. f_equal.
      assert (x `mod` 10 = x)%N as ->; [|lia].
      apply N.mod_small. apply N.div_small_iff in Hz; lia.
  - destruct (IH (x `div` 10)%N) with
      (s := String (pretty_N_char (x `mod` 10)) s)
      as (Hall & Hfirst & m & Hread).
    { apply N.div_lt; lia. }
    { by apply N.neq_0_lt_0. }
    split; [|split].
    + intros Hs. apply Hall. cbn. by rewrite Hnum, Hs.
    + exact Hfirst.
    + exists (10 * m). intros acc seen. rewrite Hread, Hone. f_equal.
      pose proof (N.div_mod x 10). lia.
Qed.

Lemma lstrip_plain (s : string) :
  all_chars numeral_char s = true → Py.lstrip s = s.
Proof.
  destruct s as [|c r]; [done|]. cbn. intros [Hc _]%andb_true_iff.
  by destruct (numeral_char_plain c Hc) as [-> _].
Qed.

Lemma rstrip_plain (s : string) :
  all_chars numeral_char s = true → Py.rstrip s = s.
Proof.
  induction s as [|c r IH]; [done|]. cbn.
  intros [Hc Hr]%andb_true_iff. rewrite IH by done.
  destruct (numeral_char_plain c Hc) as [-> _]. by destruct r.
Qed.

Lemma strip_plain (s : string) :
  all_chars numeral_char s = true → Py.strip s = s.
Proof.
  intros Hs. unfold Py.strip. by rewrite rstrip_plain, lstrip_plain.
Qed.

Lemma lower_plain (s : string) :
  all_chars numeral_char s = true → Py.lower s = s.
Proof.
  induction s as [|c r IH]; [done|]. cbn.
  intros [Hc Hr]%andb_true_iff. rewrite IH by done.
  unfold Py.lower_char. by destruct (numeral_char_plain c Hc) as [_ ->].
Qed.

Lemma pretty_N_plain (n : N) : all_chars numeral_char (pretty n) = true.
Proof.
  unfold pretty, pretty_N. case_decide as Hn; [done|].
  by apply (pretty_N_go_digits n); [lia|].
Qed.

Lemma numeral_char_int (c : ascii) :
  numeral_char c = true → Py.isspace_int c = false ∧ c ≠ "_"%char.
Proof. destruct c as [[] [] [] [] [] [] [] []]; by cbv. Qed.

Lemma lstrip_int_plain (s : string) :
  all_chars numeral_char s = true → Py.lstrip_int s = s.
Proof.
  destruct s as [|c r]; [done|]. cbn. intros [Hc _]%andb_true_iff.
  by destruct (numeral_char_int c Hc) as [-> _].
Qed.

Lemma rstrip_int_plain (s : string) :
  all_chars numeral_char s = true → Py.rstrip_int s = s.
Proof.
  induction s as [|c r IH]; [done|]. cbn.
  intros [Hc Hr]%andb_true_iff. rewrite IH by done.
  destruct (numeral_char_int c Hc) as [-> _]. by destruct r.
Qed.

Lemma count_digits_plain (s : string) :
  all_chars numeral_char s = true →
  Py.count_digits s = N.of_nat (String.length s).
Proof.
  induction s as [|c r IH]; [done|]. cbn [all_chars].
  intros [Hc Hr]%andb_true_iff. cbn [Py.count_digits String.length].
  destruct (numeral_char_int c Hc) as [_ Hu].
  rewrite decide_False by done. rewrite IH by done. lia.
Qed.

(** A number below 10^k is written with at most k digits. *)
Lemma pretty_N_go_length (k : nat) :
  ∀ x s, (x < 10 ^ N.of_nat k)%N →
         (String.length (pretty_N_go x s) ≤ k + String.length s)%nat.
Proof.
  induction k as [|k IH]; intros x s Hx.
  - assert (x = 0)%N as -> by (cbn in Hx; lia). rewrite pretty_N_go_0. lia.
  - destruct (decide (x = 0)%N) as [->|Hnz].
    { rewrite pretty_N_go_0. lia. }
    rewrite pretty_N_go_step by lia.
    etrans; [apply IH|cbn [String.length]; lia].
    rewrite Nat2N.inj_succ, N.pow_succ_r' in Hx.
    apply N.Div0.div_lt_upper_bound. lia.
Qed.

Lemma pretty_N_first (n : N) :
  ∃ c r, pretty n = String c r ∧ c ≠ "-"%char ∧ c ≠ "+"%char.
Proof.
  unfold pretty, pretty_N. case_decide as Hn; [by eexists _, _|].
  destruct (pretty_N_go_digits n) with (s := "") as (_ & H & _);
    [lia|exact H].
Qed.

(** Reading back what [str] wrote for a number gives the number, as long
    as the numeral stays within the digits the interpreter converts. *)
Lemma int_pretty_N (n : N) :
  (n < 10 ^ 4300)%N → Py.int (pretty n) = Some (Z.of_N n).
Proof.
  intros Hn.
  assert (Py.int_literal (pretty n) = Some (Z.of_N n)) as Hlit.
  { unfold Py.int_literal.
    assert (Py.int_digits 0 false (pretty n) = Some (Z.of_N n)) as ->.
    { unfold pretty, pretty_N. case_decide as Hz; [by subst|].
      destruct (pretty_N_go_digits n) with (s := "")
        as (_ & _ & m & ->); [lia|].
      cbn. f_equal; lia. }
    rewrite count_digits_plain by apply pretty_N_plain.
    replace (N.of_nat (String.length (pretty n)) <=? Py.max_str_digits)%N
      with true; [done|].
    symmetry. apply N.leb_le. unfold Py.max_str_digits.
    assert (String.length (pretty n) ≤ 4300)%nat; [|lia].
    unfold pretty, pretty_N. case_decide as Hz; [cbn; lia|].
    etrans; [apply (pretty_N_go_length 4300)|cbn [String.length]; lia].
    by replace (N.of_nat 4300) with 4300%N by lia. }
  unfold Py.int.
  rewrite rstrip_int_plain, lstrip_int_plain by apply pretty_N_plain.
  destruct (pretty_N_first n) as (c & r & Heq & Hm & Hp).
  rewrite Heq in *.
  destruct c as [[] [] [] [] [] [] [] []]; try exact Hlit; done.
Qed.

Lemma pretty_Z_plain (z : Z) : all_chars numeral_char (pretty z) = true.
Proof.
  destruct z as [|p|p]; [done|apply (pretty_N_plain (N.pos p))|].
  change (pretty (Z.neg p)) with ("-" +:+ pretty (N.pos p)).
  rewrite all_chars_app. by rewrite (pretty_N_plain (N.pos p)).
Qed.

(** What [str] writes for an integer is none of the sentinel texts. *)
Lemma pretty_Z_not_sentinel (z : Z) : pretty z ∉ ["null"; ""; "-"].
Proof.
  rewrite !elem_of_cons, elem_of_nil.
  pose proof (pretty_Z_plain z) as Hplain.
  intros [E | [E | [E | []]]].
  - rewrite E in Hplain. discriminate Hplain.
  - destruct z as [|p|p]; [discriminate E| |discriminate E].
    destruct (pretty_N_first (N.pos p)) as (c & r & Heq & _).
    change (pretty (Z.pos p)) with (pretty (N.pos p)) in E.
    rewrite Heq in E. discriminate E.
  - destruct z as [|p|p]; [discriminate E| |].
    + destruct (pretty_N_first (N.pos p)) as (c & r & Heq & Hm & _).
      change (pretty (Z.pos p)) with (pretty (N.pos p)) in E.
      rewrite Heq in E. injection E as -> _. done.
    + destruct (pretty_N_first (N.pos p)) as (c & r & Heq & _).
      change (pretty (Z.neg p)) with (String "-" (pretty (N.pos p))) in E.
      rewrite Heq in E. discriminate E.
Qed.

Lemma numbered_lookup (options : list string) (i j : nat) (option : string) :
  options !! i = Some option →
  numbered j options !! i = Some (pretty (j + i)%nat +:+ ". " +:+ option +:+ nl).
Proof.
  revert i j. induction options as [|o options IH]; intros [|i] j H;
    try done.
  - injection H as ->. cbn. by rewrite Nat.add_0_r.
  - cbn [numbered]. rewrite lookup_cons_ne_0 by done. cbn [Nat.pred].
    rewrite (IH i (S j)) by done.
    by replace (S j + i)%nat with (j + S i)%nat by lia.
Qed.

(** X3. The number the menu shows beside an option selects it: for the
    option at position i the menu prints the line [i+1. option], and
    typing the decimal numeral of i+1 returns that option at once.  (The
    menu is taken to have fewer than 10^4300 options, so that the numeral
    stays within the digits [int()] converts.) *)
Theorem get_user_selection_numeral (options : list string) (prompt : string)
  (i : nat) (option : string) (rest out : list string) (f : FS)
  (o : list string) :
  Z.of_nat (length options) < 10 ^ 4300 →
  options !! i = Some option →
  numbered 1 options !! i = Some (pretty (S i) +:+ ". " +:+ option +:+ nl)
  ∧ get_user_selection options prompt (mkWorld (pretty (S i) :: rest) out f o)
    = (Ok option,
       mkWorld rest
         (out ++ [prompt +:+ nl] ++ numbered 1 options
          ++ [choice_prompt (length options)])
         f o).
Proof.
  intros Hsize Hopt. split; [by apply (numbered_lookup options i 1)|].
  pose proof (lookup_lt_Some _ _ _ Hopt) as Hlt.
  assert (Py.int (pretty (S i)) = Some (Z.of_nat (S i))) as Hint.
  { unfold pretty, pretty_nat. rewrite int_pretty_N; [f_equal; lia|].
    apply N2Z.inj_lt. rewrite N2Z.inj_pow, nat_N_Z. cbn [Z.of_N]. lia. }
  assert (1 ≤ Z.of_nat (S i) ≤ Z.of_nat (length options)) as Hrange by lia.
  assert (options !! Z.to_nat (Z.of_nat (S i) - 1) = Some option) as Hlook.
  { by replace (Z.to_nat (Z.of_nat (S i) - 1)) with i by lia. }
  exact (get_user_selection_accept options prompt [] (pretty (S i)) rest
           (Z.of_nat (S i)) option out f o (Forall_nil_2 _) Hint Hrange
           Hlook).
Qed.

Lemma get_user_selection_numeral_delete :
  (Z.of_nat (length operations) < 10 ^ 4300
   ∧ operations !! 3%nat = Some "delete")
  ∧ get_user_selection operations "Choose"
      (mkWorld (pretty 4%nat :: ["t"]) [] empty_fs [])
    = (Ok "delete",
       mkWorld ["t"]
         ([] ++ ["Choose" +:+ nl] ++ numbered 1 operations
          ++ [choice_prompt (length operations)])
         empty_fs []).
Proof.
  assert (Z.of_nat (length operations) < 10 ^ 4300) as Hsize
    by (by vm_compute).
  split; [split; [exact Hsize|reflexivity]|].
  exact (proj2 (get_user_selection_numeral operations "Choose" 3 "delete"
                  ["t"] [] empty_fs [] Hsize eq_refl)).
Defined.

(** X4. A value that [iterrows] hands over as an integer is never taken
    for a sentinel: INSERT renders it as its decimal numeral between
    single quotes, and UPDATE keeps its column.  (In a row that also holds
    a float, [iterrows] hands the integer over as a float: that is a
    [VScalar] here.) *)
Theorem format_value_int (z : Z) :
  has_value (VInt z) = true
  ∧ format_value (VInt z) = "'" +:+ pretty z +:+ "'".
Proof.
  assert (has_value (VInt z) = true) as Hv.
  { unfold has_value. cbn [notna str andb].
    rewrite strip_plain, lower_plain by apply pretty_Z_plain.
    apply negb_true_iff, not_true_is_false. rewrite contains_true.
    apply pretty_Z_not_sentinel. }
  split; [exact Hv|]. unfold format_value. by rewrite Hv.
Qed.

(** ** Asking for a name *)

Lemma rstrip_cons (c : ascii) (r : string) :
  Py.rstrip (String c r)
  = match Py.rstrip r with
    | EmptyString => if Py.isspace c then "" else String c ""
    | r' => String c r'
    end.
Proof. reflexivity. Qed.

Lemma rstrip_rstrip (s : string) : Py.rstrip (Py.rstrip s) = Py.rstrip s.
Proof.
  induction s as [|c r IH]; [done|]. rewrite rstrip_cons.
  destruct (Py.rstrip r) as [|c' r'] eqn:E.
  - destruct (Py.isspace c) eqn:Ec; [done|]. rewrite rstrip_cons.
    cbn [Py.rstrip]. by rewrite Ec.
  - rewrite rstrip_cons. by rewrite IH.
Qed.

Lemma lstrip_lstrip (s : string) : Py.lstrip (Py.lstrip s) = Py.lstrip s.
Proof.
  induction s as [|c r IH]; [done|]. cbn [Py.lstrip].
  destruct (Py.isspace c) eqn:Ec; [done|]. cbn. by rewrite Ec.
Qed.

Lemma rstrip_lstrip (s : string) :
  Py.rstrip (Py.lstrip s) = Py.lstrip (Py.rstrip s).
Proof.
  induction s as [|c r IH]; [done|]. rewrite rstrip_cons.
  cbn [Py.lstrip]. destruct (Py.isspace c) eqn:Ec.
  - rewrite IH. destruct (Py.rstrip r) as [|c' r']; [done|].
    cbn [Py.lstrip]. by rewrite Ec.
  - rewrite rstrip_cons. destruct (Py.rstrip r) as [|c' r'].
    + rewrite Ec. cbn [Py.lstrip]. by rewrite Ec.
    + cbn [Py.lstrip]. by rewrite Ec.
Qed.

(** Trimming a trimmed text changes nothing. *)
Lemma strip_strip (s : string) : Py.strip (Py.strip s) = Py.strip s.
Proof.
  unfold Py.strip.
  by rewrite rstrip_lstrip, rstrip_rstrip, lstrip_lstrip.
Qed.

Lemma name_loop_blanks (prompt complaint : string) (blanks : list string)
  (line : string) (rest : list string) (w : world) :
  Forall (λ l, Py.strip l = "") blanks →
  Py.strip line ≠ "" →
  name_loop prompt complaint (blanks ++ line :: rest) w
  = (Ok (Py.strip line),
     mkWorld rest
       (stdout w ++ blank_retries prompt complaint blanks ++ [prompt])
       (fs w) (opened w)).
Proof.
  intros Hblanks Hname. revert w.
  induction Hblanks as [|b blanks Hb Hblanks IH]; intros w.
  - by apply name_loop_accept.
  - cbn [app name_loop]. rewrite decide_True by done.
    rewrite IH. cbn. by rewrite <- !app_assoc.
Qed.

(** X5. The driver's name question turns down every blank line (empty or
    white space only) with its complaint and asks again; the first other
    line is taken, and the name it returns is that line trimmed: it is
    not empty and trimming it again changes nothing. *)
Theorem ask_name_spec (prompt complaint : string) (blanks : list string)
  (line : string) (rest out : list string) (f : FS) (o : list string) :
  Forall (λ l, Py.strip l = "") blanks →
  Py.strip line ≠ "" →
  ∃ name,
    ask_name prompt complaint (mkWorld (blanks ++ line :: rest) out f o)
    = (Ok name,
       mkWorld rest
         (out ++ blank_retries prompt complaint blanks ++ [prompt]) f o)
    ∧ name = Py.strip line ∧ name ≠ "" ∧ Py.strip name = name.
Proof.
  intros Hblanks Hname. exists (Py.strip line).
  split; [|split; [done|split; [done|apply strip_strip]]].
  exact (name_loop_blanks prompt complaint blanks line rest
           (mkWorld (blanks ++ line :: rest) out f o) Hblanks Hname).
Qed.

Lemma ask_name_spec_users :
  (Forall (λ l, Py.strip l = "") [""; "   "] ∧ Py.strip " users " ≠ "")
  ∧ ∃ name,
      ask_name "Enter the table name: " "Table name cannot be empty."
        (mkWorld ([""; "   "] ++ " users " :: ["x"]) [] empty_fs [])
      = (Ok name,
         mkWorld ["x"]
           ([] ++ blank_retries "Enter the table name: "
                    "Table name cannot be empty." [""; "   "]
            ++ ["Enter the table name: "]) empty_fs [])
      ∧ name = Py.strip " users " ∧ name ≠ "" ∧ Py.strip name = name.
Proof.
  assert (Forall (λ l, Py.strip l = "") [""; "   "]) as H1
    by (by repeat constructor).
  assert (Py.strip " users " ≠ "") as H2 by (vm_compute; by intros [=]).
  split; [exact (conj H1 H2)|].
  exact (ask_name_spec "Enter the table name: " "Table name cannot be empty."
           [""; "   "] " users " ["x"] [] empty_fs [] H1 H2).
Defined.

(** ** Actions that leave the files alone *)

Lemma keeps_ret {A} (a : A) : keeps_files (ret a).
Proof. by intros w. Qed.

Lemma keeps_print (s : string) : keeps_files (print s).
Proof. by intros w. Qed.

Lemma keeps_input (prompt : string) : keeps_files (input prompt).
Proof. intros w. unfold input. cbn [stdin write]. by destruct (stdin w). Qed.

Lemma keeps_bind {A B} (m : IO A) (k : A → IO B) :
  keeps_files m → (∀ a, keeps_files (k a)) → keeps_files (bind m k).
Proof.
  intros Hm Hk w. unfold bind. destruct (Hm w) as [H1 H2].
  destruct (m w) as [[a|e] w']; cbn [snd] in *.
  - destruct (Hk a w') as [H3 H4]. by rewrite H3, H4.
  - done.
Qed.

Lemma name_loop_files (prompt complaint : string) (lines : list string)
  (w : world) :
  fs (name_loop prompt complaint lines w).2 = fs w
  ∧ opened (name_loop prompt complaint lines w).2 = opened w.
Proof.
  revert w. induction lines as [|line lines IH]; intros w; [done|].
  cbn [name_loop]. destruct (decide (Py.strip line = "")); [|done].
  destruct (IH (println complaint
                  (set_stdin lines (write prompt w)))) as [-> ->].
  done.
Qed.

Lemma keeps_ask_name (prompt complaint : string) :
  keeps_files (ask_name prompt complaint).
Proof. intros w. apply name_loop_files. Qed.

Lemma columns_loop_files (n : nat) :
  ∀ lines cols w,
    (length lines ≤ n)%nat →
    fs (columns_loop lines cols w).2 = fs w
    ∧ opened (columns_loop lines cols w).2 = opened w.
Proof.
  induction n as [|n IH]; intros lines cols w Hlen.
  - destruct lines; [done|cbn in Hlen; lia].
  - destruct lines as [|a lines]; [done|]. cbn [columns_loop].
    destruct (decide (Py.lower a = "done")); [done|].
    destruct lines as [|b [|c [|d rest]]]; try done.
    match goal with
    | |- context [columns_loop rest ?cols' ?w'] =>
        destruct (IH rest cols' w') as [-> ->]; [cbn in Hlen; lia|done]
    end.
Qed.

Lemma keeps_ask_columns : keeps_files ask_columns.
Proof. intros w. by apply (columns_loop_files (length (stdin w))). Qed.

Lemma keeps_get_user_selection (options : list string) (prompt : string) :
  keeps_files (get_user_selection options prompt).
Proof.
  intros w. unfold get_user_selection. rewrite print_options_stdout.
  cbn [stdin].
  match goal with
  | |- context [selection_loop options ?l ?w'] =>
      destruct (selection_loop_outcome options l w') as (_ & -> & ->)
  end.
  done.
Qed.

(** Prove [keeps_files] for a chain of console actions. *)
Ltac keeps_chain :=
  repeat first
    [ apply keeps_input | apply keeps_print | apply keeps_ask_name
    | apply keeps_ask_columns | apply keeps_ret
    | apply keeps_bind; [|intros ?] ].

Section TableRuns.

Variable realpath : string → string.
Variable read_csv read_excel : string → result DataFrame.

Local Abbreviation run := (main realpath read_csv read_excel).
Local Abbreviation dispatched := (dispatch realpath read_csv read_excel).

Lemma dispatch_keeps_files (operation table_name : string) :
  operation ≠ "insert" → operation ≠ "update" →
  keeps_files (dispatched operation table_name).
Proof.
  intros Hi Hu. unfold dispatch, generated.
  replace (Py.contains operation ["insert"; "update"]) with false.
  2:{ symmetry. apply not_true_is_false. rewrite contains_true.
      rewrite !elem_of_cons, elem_of_nil. tauto. }
  repeat case_decide; keeps_chain.
Qed.

(** X6. Only the insert and update operations touch files: when the
    accepted menu choice is any other operation, the file system is left
    as it was and no table reader is called, whatever is typed afterwards
    and however the run ends (also when the input ends early). *)
Theorem main_keeps_files (bad : list string) (sel : string) (k : Z)
  (rest out : list string) (f : FS) (o : list string) :
  Forall (rejected (length operations)) bad →
  Py.int sel = Some k → 1 ≤ k ≤ 9 → k ≠ 2 → k ≠ 3 →
  fs (run (mkWorld (bad ++ sel :: rest) out f o)).2 = f
  ∧ opened (run (mkWorld (bad ++ sel :: rest) out f o)).2 = o.
Proof.
  intros Hbad Hsel Hk H2 H3.
  destruct (lookup_choice operations k Hk) as [operation Hop].
  assert (operation ≠ "insert" ∧ operation ≠ "update") as [Hi Hu].
  { assert (k = 1 ∨ k = 4 ∨ k = 5 ∨ k = 6 ∨ k = 7 ∨ k = 8 ∨ k = 9)
      as Hcases by lia.
    repeat (destruct Hcases as [-> | Hcases]); try subst k;
      cbn in Hop; injection Hop as <-; by split. }
  destruct (show_warning_out (mkWorld (bad ++ sel :: rest) out f o))
    as [out1 H1]. cbn [stdin fs opened] in H1.
  unfold main. rewrite (bind_ok _ _ _ _ _ H1).
  rewrite (bind_ok _ _ _ _ _
             (get_user_selection_accept operations _ bad sel rest k
                operation out1 f o Hbad Hsel Hk Hop)).
  match goal with
  | |- context [bind ?m ?c ?w'] =>
      assert (keeps_files (bind m c)) as Hkeep
  end.
  { apply keeps_bind; [apply keeps_ask_name|].
    intros t. by apply dispatch_keeps_files. }
  apply Hkeep.
Qed.

End TableRuns.

Lemma main_keeps_files_eof :
  (Forall (rejected (length operations)) ["0"; "eleven"]
   ∧ Py.int "5" = Some 5 ∧ 1 ≤ 5 ≤ 9 ∧ 5 ≠ 2 ∧ 5 ≠ 3)
  ∧ fs (main id (λ _, Ok users) (λ _, Ok users)
          (mkWorld (["0"; "eleven"] ++ "5" :: ["t"; "id"; "INT"]) []
             empty_fs [])).2 = empty_fs
  ∧ opened (main id (λ _, Ok users) (λ _, Ok users)
              (mkWorld (["0"; "eleven"] ++ "5" :: ["t"; "id"; "INT"]) []
                 empty_fs [])).2 = [].
Proof.
  assert (Forall (rejected (length operations)) ["0"; "eleven"]) as Hbad.
  { repeat constructor; unfold rejected; cbn; lia. }
  split; [repeat split; (exact Hbad || lia)|].
  apply (main_keeps_files id (λ _, Ok users) (λ _, Ok users) ["0"; "eleven"]
           "5" 5 ["t"; "id"; "INT"] [] empty_fs [] Hbad eq_refl);
    lia.
Defined.

(** ** Runs of the insert and update operations *)

Section TableWrites.

Variable realpath : string → string.
Variable read_csv read_excel : string → result DataFrame.

Local Abbreviation run := (main realpath read_csv read_excel).
Local Abbreviation dispatched := (dispatch realpath read_csv read_excel).

Lemma excel_is_not_csv (ext : string) : ext ∈ [".xls"; ".xlsx"] → ext ≠ ".csv".
Proof.
  rewrite !elem_of_cons, elem_of_nil. by intros [-> | [-> | []]].
Qed.

Lemma read_input_file_gives (file_path : string) (df : DataFrame)
  (w : world) :
  reader_gives read_csv read_excel file_path df →
  read_input_file read_csv read_excel file_path w
  = (Ok df, mkWorld (stdin w) (stdout w) (fs w) (opened w ++ [file_path])).
Proof.
  intros [[Hext Hread] | [Hext Hread]]; unfold read_input_file, call_reader.
  - rewrite decide_True by done. by rewrite Hread.
  - rewrite decide_False by (by apply excel_is_not_csv).
    rewrite (proj2 (contains_true _ _) Hext). by rewrite Hread.
Qed.

Lemma read_input_file_fails (file_path : string) (e : exn) (w : world) :
  reader_fails read_csv read_excel file_path e →
  read_input_file read_csv read_excel file_path w
  = (Raise e, mkWorld (stdin w) (stdout w) (fs w) (opened w ++ [file_path])).
Proof.
  intros [[Hext Hread] | [Hext Hread]]; unfold read_input_file, call_reader.
  - rewrite decide_True by done. by rewrite Hread.
  - rewrite decide_False by (by apply excel_is_not_csv).
    rewrite (proj2 (contains_true _ _) Hext). by rewrite Hread.
Qed.

(** The tail of the insert/update branch: the statement text is written
    and reported twice. *)
Lemma write_and_report (sql_query name : string) (w : world) :
  Py.has_char "/" name = false →
  files (fs w) !! "./storage" = None →
  "./storage/" +:+ name ∉ dirs (fs w) →
  (write_queries_to_file sql_query name ;;
   print ("SQL queries have been written to " +:+ name)) w
  = (Ok tt,
     mkWorld (stdin w) (stdout w ++ written_notes name)
       (mkFS ({["./storage"]} ∪ dirs (fs w))
          (<["./storage/" +:+ name := sql_query +:+ nl +:+ nl]>
             (files (fs w))))
       (opened w)).
Proof.
  intros Hname Hfile Hfree.
  rewrite (bind_ok _ _ _ _ _
             (write_queries_to_file_ok sql_query name w Hname Hfile Hfree)).
  rewrite print_out. cbn [stdin stdout fs opened written_notes].
  by rewrite <- app_assoc.
Qed.

Lemma dispatch_insert (table_name p sql : string) (df : DataFrame)
  (rest out : list string) (f : FS) (o : list string) :
  reader_gives read_csv read_excel (realpath p) df →
  generate_insert_queries df table_name = Ok sql →
  files f !! "./storage" = None →
  "./storage/" +:+ get_output_file_name (realpath p) ∉ dirs f →
  ∃ out',
    dispatched "insert" table_name (mkWorld (p :: rest) out f o)
    = (Ok tt,
       mkWorld rest
         (out' ++ written_notes (get_output_file_name (realpath p)))
         (mkFS ({["./storage"]} ∪ dirs f)
            (<["./storage/" +:+ get_output_file_name (realpath p)
               := sql +:+ nl +:+ nl]> (files f)))
         (o ++ [realpath p])).
Proof.
  intros Hread Hsql Hfile Hfree. eexists. unfold dispatch.
  rewrite decide_False by done.
  change (Py.contains "insert" ["insert"; "update"]) with true. cbv iota.
  rewrite (bind_ok _ _ _ _ _ (input_line _ p rest out f o)).
  rewrite (bind_ok _ _ _ _ _ (read_input_file_gives _ df _ Hread)).
  rewrite decide_True by done. rewrite Hsql.
  rewrite (bind_ok _ _ _ _ sql (eq_refl _)).
  cbn [stdin stdout fs opened].
  rewrite write_and_report;
    [reflexivity|apply get_output_file_name_no_sep|done|done].
Qed.

Lemma dispatch_insert_raises (table_name p : string) (e : exn)
  (df : DataFrame) (rest out : list string) (f : FS) (o : list string) :
  reader_gives read_csv read_excel (realpath p) df →
  generate_insert_queries df table_name = Raise e →
  ∃ out',
    dispatched "insert" table_name (mkWorld (p :: rest) out f o)
    = (Raise e, mkWorld rest out' f (o ++ [realpath p])).
Proof.
  intros Hread Hsql. eexists. unfold dispatch.
  rewrite decide_False by done.
  change (Py.contains "insert" ["insert"; "update"]) with true. cbv iota.
  rewrite (bind_ok _ _ _ _ _ (input_line _ p rest out f o)).
  rewrite (bind_ok _ _ _ _ _ (read_input_file_gives _ df _ Hread)).
  rewrite decide_True by done. rewrite Hsql.
  erewrite bind_raise by reflexivity. reflexivity.
Qed.

Lemma dispatch_update (table_name p condition : string) (df : DataFrame)
  (rest out : list string) (f : FS) (o : list string) :
  reader_gives read_csv read_excel (realpath p) df →
  well_formed df →
  files f !! "./storage" = None →
  "./storage/" +:+ get_output_file_name (realpath p) ∉ dirs f →
  dispatched "update" table_name (mkWorld (p :: condition :: rest) out f o)
  = (Ok tt,
     mkWorld rest
       (out
        ++ ["Enter full path of the CSV/Excel file: ";
            "Enter the condition for updating rows (e.g., WHERE id = 1): "]
        ++ written_notes (get_output_file_name (realpath p)))
       (mkFS ({["./storage"]} ∪ dirs f)
          (<["./storage/" +:+ get_output_file_name (realpath p)
             := Py.join nl
                  (map (update_statement table_name condition (columns df))
                     (data df)) +:+ nl +:+ nl]>
             (files f)))
       (o ++ [realpath p])).
Proof.
  intros Hread Hwf Hfile Hfree. unfold dispatch.
  rewrite decide_False by done.
  change (Py.contains "update" ["insert"; "update"]) with true. cbv iota.
  rewrite (bind_ok _ _ _ _ _ (input_line _ p (condition :: rest) out f o)).
  rewrite (bind_ok _ _ _ _ _ (read_input_file_gives _ df _ Hread)).
  rewrite decide_False by done.
  cbn [stdin stdout fs opened].
  erewrite (bind_ok (bind _ _)).
  2:{ rewrite (bind_ok _ _ _ _ _ (input_line _ condition rest _ f _)).
      rewrite (generate_update_queries_eq df table_name condition Hwf).
      reflexivity. }
  rewrite write_and_report;
    [|apply get_output_file_name_no_sep|done|done].
  cbn [stdin stdout fs opened]. by rewrite <- !app_assoc.
Qed.

Lemma dispatch_reader_fails (operation table_name p : string) (e : exn)
  (rest out : list string) (f : FS) (o : list string) :
  operation = "insert" ∨ operation = "update" →
  reader_fails read_csv read_excel (realpath p) e →
  ∃ out',
    dispatched operation table_name (mkWorld (p :: rest) out f o)
    = (Raise e, mkWorld rest out' f (o ++ [realpath p])).
Proof.
  intros Hop Hread. eexists.
  destruct Hop as [-> | ->]; unfold dispatch;
    rewrite decide_False by done;
    change (Py.contains _ ["insert"; "update"]) with true; cbv iota;
    rewrite (bind_ok _ _ _ _ _ (input_line _ p rest out f o));
    rewrite (bind_raise _ _ _ _ _ (read_input_file_fails _ e _ Hread));
    reflexivity.
Qed.

(** X7. A run of the insert operation reads the path typed after the
    table name and calls once the reader that fits its extension (csv in
    any letter case to the csv reader, xls and xlsx to the Excel reader).
    When the INSERT builder returns a statement for the table and the
    trimmed table name, the run writes it, followed by two newlines, to
    [./storage/<name>.sql], and the console ends with two notes, the first
    naming the path and the second the bare file name.  When the builder
    raises (a column label that is no [str]), the run ends with that
    error after the reader call: nothing is written and no further line
    is read. *)
Theorem main_insert (sel tl p : string) (df : DataFrame)
  (rest out : list string) (f : FS) (o : list string) :
  Py.int sel = Some 2 → Py.strip tl ≠ "" →
  reader_gives read_csv read_excel (realpath p) df →
  files f !! "./storage" = None →
  "./storage/" +:+ get_output_file_name (realpath p) ∉ dirs f →
  (∀ sql,
     generate_insert_queries df (Py.strip tl) = Ok sql →
     ∃ out',
       run (mkWorld (sel :: tl :: p :: rest) out f o)
       = (Ok tt,
          mkWorld rest
            (out' ++ written_notes (get_output_file_name (realpath p)))
            (mkFS ({["./storage"]} ∪ dirs f)
               (<["./storage/" +:+ get_output_file_name (realpath p)
                  := sql +:+ nl +:+ nl]> (files f)))
            (o ++ [realpath p])))
  ∧ (∀ e,
       generate_insert_queries df (Py.strip tl) = Raise e →
       ∃ out',
         run (mkWorld (sel :: tl :: p :: rest) out f o)
         = (Raise e, mkWorld rest out' f (o ++ [realpath p]))).
Proof.
  intros Hsel Hname Hread Hfile Hfree.
  destruct (main_dispatch realpath read_csv read_excel sel tl 2 "insert"
              (p :: rest) out f o) as [out1 ->]; [done|lia|done|done|].
  split.
  - intros sql Hsql. by apply dispatch_insert with (df := df).
  - intros e Hsql. by apply dispatch_insert_raises with (df := df).
Qed.

(** X8. A run of the update operation on a well-formed table asks for the
    path and then for the condition, calls the reader that fits the
    extension once, and writes one UPDATE statement per row,
    newline-joined and followed by two newlines, to
    [./storage/<name>.sql], with the condition exactly as typed (not
    trimmed) and the table name trimmed; it reads exactly the path and the
    condition line. *)
Theorem main_update (sel tl p condition : string) (df : DataFrame)
  (rest out : list string) (f : FS) (o : list string) :
  Py.int sel = Some 3 → Py.strip tl ≠ "" →
  reader_gives read_csv read_excel (realpath p) df →
  well_formed df →
  files f !! "./storage" = None →
  "./storage/" +:+ get_output_file_name (realpath p) ∉ dirs f →
  ∃ out',
    run (mkWorld (sel :: tl :: p :: condition :: rest) out f o)
    = (Ok tt,
       mkWorld rest
         (out'
          ++ ["Enter full path of the CSV/Excel file: ";
              "Enter the condition for updating rows (e.g., WHERE id = 1): "]
          ++ written_notes (get_output_file_name (realpath p)))
         (mkFS ({["./storage"]} ∪ dirs f)
            (<["./storage/" +:+ get_output_file_name (realpath p)
               := Py.join nl
                    (map (update_statement (Py.strip tl) condition
                            (columns df)) (data df)) +:+ nl +:+ nl]>
               (files f)))
         (o ++ [realpath p])).
Proof.
  intros Hsel Hname Hread Hwf Hfile Hfree.
  destruct (main_dispatch realpath read_csv read_excel sel tl 3 "update"
              (p :: condition :: rest) out f o)
    as [out1 ->]; [done|lia|done|done|].
  exists out1. by apply dispatch_update.
Qed.

(** X9. When the reader picked for the path fails, a run of the insert or
    update operation ends with the reader's error: the reader was called
    once, nothing was written, and no further line was read (the update
    condition is not asked for). *)
Theorem main_reader_fails (sel : string) (k : Z) (tl p : string) (e : exn)
  (rest out : list string) (f : FS) (o : list string) :
  Py.int sel = Some k → k = 2 ∨ k = 3 → Py.strip tl ≠ "" →
  reader_fails read_csv read_excel (realpath p) e →
  ∃ out',
    run (mkWorld (sel :: tl :: p :: rest) out f o)
    = (Raise e, mkWorld rest out' f (o ++ [realpath p])).
Proof.
  intros Hsel Hk Hname Hread.
  assert (∃ operation,
            operations !! Z.to_nat (k - 1) = Some operation
            ∧ (operation = "insert" ∨ operation = "update"))
    as (operation & Hlook & Hop).
  { destruct Hk as [-> | ->]; eexists; split; try reflexivity; auto. }
  destruct (main_dispatch realpath read_csv read_excel sel tl k operation
              (p :: rest) out f o) as [out1 ->]; [done|lia|done|done|].
  by apply dispatch_reader_fails.
Qed.

End TableWrites.

Lemma main_insert_users :
  (Py.int "2" = Some 2 ∧ Py.strip " users " ≠ ""
   ∧ reader_gives (λ _, Ok users) no_reader (id "/data/users.CSV") users
   ∧ files empty_fs !! "./storage" = None
   ∧ ("./storage/" +:+ get_output_file_name (id "/data/users.CSV")
      ∉ dirs empty_fs)
   ∧ generate_insert_queries users (Py.strip " users ")
     = Ok "INSERT INTO users (id, name) VALUES ('1', 'Alice'), ('2', NULL);")
  ∧ get_output_file_name (id "/data/users.CSV") = "users.sql"
  ∧ ∃ out',
      main id (λ _, Ok users) no_reader
        (mkWorld ["2"; " users "; "/data/users.CSV"] [] empty_fs [])
      = (Ok tt,
         mkWorld []
           (out' ++ written_notes (get_output_file_name (id "/data/users.CSV")))
           (mkFS ({["./storage"]} ∪ dirs empty_fs)
              (<["./storage/" +:+ get_output_file_name (id "/data/users.CSV")
                 := "INSERT INTO users (id, name) VALUES ('1', 'Alice'), ('2', NULL);"
                    +:+ nl +:+ nl]> (files empty_fs)))
           ([] ++ [id "/data/users.CSV"])).
Proof.
  assert (Py.strip " users " ≠ "") as H1 by (vm_compute; by intros [=]).
  assert (reader_gives (λ _, Ok users) no_reader (id "/data/users.CSV") users)
    as H2 by (left; split; reflexivity).
  assert (files empty_fs !! "./storage" = None) as H3 by apply lookup_empty.
  assert ("./storage/" +:+ get_output_file_name (id "/data/users.CSV")
          ∉ dirs empty_fs) as H4 by apply not_elem_of_empty.
  assert (generate_insert_queries users (Py.strip " users ")
          = Ok "INSERT INTO users (id, name) VALUES ('1', 'Alice'), ('2', NULL);")
    as H5 by reflexivity.
  split; [by repeat split|]. split; [reflexivity|].
  exact (proj1 (main_insert id (λ _, Ok users) no_reader "2" " users "
                  "/data/users.CSV" users [] [] empty_fs [] eq_refl H1 H2 H3
                  H4) _ H5).
Defined.

Lemma main_update_users :
  (Py.int "3" = Some 3 ∧ Py.strip "users" ≠ ""
   ∧ reader_gives no_reader (λ _, Ok users) (id "/data/users.xlsx") users
   ∧ well_formed users
   ∧ files empty_fs !! "./storage" = None
   ∧ "./storage/" +:+ get_output_file_name (id "/data/users.xlsx")
     ∉ dirs empty_fs)
  ∧ ∃ out',
      main id no_reader (λ _, Ok users)
        (mkWorld ["3"; "users"; "/data/users.xlsx"; " id = 1 "] [] empty_fs [])
      = (Ok tt,
         mkWorld []
           (out'
            ++ ["Enter full path of the CSV/Excel file: ";
                "Enter the condition for updating rows (e.g., WHERE id = 1): "]
            ++ written_notes (get_output_file_name (id "/data/users.xlsx")))
           (mkFS ({["./storage"]} ∪ dirs empty_fs)
              (<["./storage/" +:+ get_output_file_name (id "/data/users.xlsx")
                 := Py.join nl
                      (map (update_statement (Py.strip "users") " id = 1 "
                              (columns users)) (data users))
                    +:+ nl +:+ nl]> (files empty_fs)))
           ([] ++ [id "/data/users.xlsx"])).
Proof.
  assert (Py.strip "users" ≠ "") as H1 by (vm_compute; by intros [=]).
  assert (reader_gives no_reader (λ _, Ok users) (id "/data/users.xlsx") users)
    as H2.
  { right. split; [|reflexivity].
    apply elem_of_cons. right. apply elem_of_cons. by left. }
  assert (files empty_fs !! "./storage" = None) as H3 by apply lookup_empty.
  assert ("./storage/" +:+ get_output_file_name (id "/data/users.xlsx")
          ∉ dirs empty_fs) as H4 by apply not_elem_of_empty.
  split; [repeat split; (done || apply users_well_formed)|].
  exact (main_update id no_reader (λ _, Ok users) "3" "users"
           "/data/users.xlsx" " id = 1 " users [] [] empty_fs [] eq_refl H1 H2
           users_well_formed H3 H4).
Defined.

Lemma main_reader_fails_missing :
  (Py.int "3" = Some 3 ∧ (3 = 2 ∨ 3 = 3) ∧ Py.strip "users" ≠ ""
   ∧ reader_fails no_reader no_reader (id "/data/users.csv")
       (FileNotFoundError "/data/users.csv"))
  ∧ ∃ out',
      main id no_reader no_reader
        (mkWorld ["3"; "users"; "/data/users.csv"; "id = 1"] [] empty_fs [])
      = (Raise (FileNotFoundError "/data/users.csv"),
         mkWorld ["id = 1"] out' empty_fs ([] ++ [id "/data/users.csv"])).
Proof.
  assert (Py.strip "users" ≠ "") as H1 by (vm_compute; by intros [=]).
  assert (reader_fails no_reader no_reader (id "/data/users.csv")
            (FileNotFoundError "/data/users.csv")) as H2
    by (left; split; reflexivity).
  split; [repeat split; (done || by right)|].
  exact (main_reader_fails id no_reader no_reader "3" 3 "users"
           "/data/users.csv" (FileNotFoundError "/data/users.csv")
           ["id = 1"] [] empty_fs [] eq_refl (or_intror eq_refl) H1 H2).
Defined.

(** ** Paths without an extension *)

Lemma length_take (i : nat) (s : string) :
  (i ≤ String.length s)%nat → String.length (Py.take i s) = i.
Proof.
  revert s. induction i as [|i IH]; intros [|c s] H; cbn in *;
    try done; try lia.
  rewrite IH; lia.
Qed.

Lemma length_take_le (i : nat) (s : string) :
  (String.length (Py.take i s) ≤ i)%nat.
Proof.
  revert s. induction i as [|i IH]; intros [|c s]; cbn; try lia.
  specialize (IH s). lia.
Qed.

Lemma rfind_upper_bound (c : ascii) (s : string) :
  Py.rfind c s < Z.of_nat (String.length s).
Proof.
  induction s as [|a s IH]; cbn [Py.rfind String.length]; [lia|].
  destruct (0 <=? Py.rfind c s); [lia|]. destruct (decide (a = c)); lia.
Qed.

Lemma rfind_app_last (c : ascii) (a b : string) :
  Py.has_char c b = false →
  Py.rfind c (a +:+ String c b) = Z.of_nat (String.length a).
Proof.
  intros Hb. induction a as [|x a IH].
  - change (Py.rfind c ("" +:+ String c b))
      with (if 0 <=? Py.rfind c b then Py.rfind c b + 1
            else if decide (c = c) then 0 else -1).
    apply rfind_absent in Hb. rewrite Hb. cbn. by rewrite decide_True.
  - rewrite append_cons.
    change (Py.rfind c (String x (a +:+ String c b)))
      with (if 0 <=? Py.rfind c (a +:+ String c b)
            then Py.rfind c (a +:+ String c b) + 1
            else if decide (x = c) then 0 else -1).
    cbn [String.length]. rewrite IH.
    replace (0 <=? Z.of_nat (String.length a)) with true
      by (symmetry; apply Z.leb_le; lia).
    lia.
Qed.

(** A path whose file name has no dot, or only the leading dot of a
    hidden file, has no extension. *)
Lemma splitext_no_extension (p : string) :
  Py.has_char "." (os_path.basename p) = false
  ∨ (∃ stem, os_path.basename p = String "." stem
             ∧ Py.has_char "." stem = false) →
  os_path.splitext p = (p, "").
Proof.
  pose proof (rfind_lower_bound "/" p) as Hlow.
  pose proof (rfind_upper_bound "/" p) as Hup.
  pose proof (take_drop (Z.to_nat (Py.rfind "/" p + 1)) p) as Hp.
  fold (os_path.basename p) in Hp.
  set (dir := Py.take (Z.to_nat (Py.rfind "/" p + 1)) p) in *.
  assert (String.length dir = Z.to_nat (Py.rfind "/" p + 1)) as Hdir
    by (apply length_take; lia).
  unfold os_path.splitext.
  intros [Hnone | (stem & Hbase & Hstem)].
  - assert (Py.rfind "." p = Py.rfind "." dir) as Hdot
      by (rewrite <- Hp at 1; by apply rfind_app_absent).
    pose proof (rfind_upper_bound "." dir) as Hd.
    replace (Py.rfind "/" p <? Py.rfind "." p) with false; [done|].
    symmetry. apply Z.ltb_ge. lia.
  - assert (Py.rfind "." p = Z.of_nat (String.length dir)) as Hdot.
    { rewrite <- Hp at 1. rewrite Hbase. by apply rfind_app_last. }
    assert (Py.rfind "." p = Py.rfind "/" p + 1) as -> by lia.
    replace (Py.rfind "/" p <? Py.rfind "/" p + 1) with true
      by (symmetry; apply Z.ltb_lt; lia).
    by replace (Z.to_nat (Py.rfind "/" p + 1 - (Py.rfind "/" p + 1)))
      with 0%nat by lia.
Qed.

Section NoExtension.

Variable read_csv read_excel : string → result DataFrame.

(** X10. A path whose file name holds no dot (a dot in a directory name
    does not count), or only the leading dot of a hidden file such as
    [.csv], has no extension for the reader: it is refused with the
    unsupported-format error and no reader is called. *)
Theorem read_input_file_no_extension (file_path : string) (w : world) :
  Py.has_char "." (os_path.basename file_path) = false
  ∨ (∃ stem, os_path.basename file_path = String "." stem
             ∧ Py.has_char "." stem = false) →
  read_input_file read_csv read_excel file_path w
  = (Raise (ValueError unsupported), w).
Proof.
  intros Hname. apply (read_input_file_unsupported id).
  rewrite (splitext_no_extension file_path Hname). cbn.
  rewrite !elem_of_cons, elem_of_nil. by intros [[=] | [[=] | [[=] | []]]].
Qed.

End NoExtension.

Lemma read_input_file_hidden_csv :
  (Py.has_char "." (os_path.basename "/data.d/.csv") = false
   ∨ ∃ stem, os_path.basename "/data.d/.csv" = String "." stem
             ∧ Py.has_char "." stem = false)
  ∧ read_input_file (λ _, Ok users) (λ _, Ok users) "/data.d/.csv" (start [])
    = (Raise (ValueError unsupported), start []).
Proof.
  assert (Py.has_char "." (os_path.basename "/data.d/.csv") = false
          ∨ ∃ stem, os_path.basename "/data.d/.csv" = String "." stem
                    ∧ Py.has_char "." stem = false) as H.
  { right. by exists "csv". }
  split; [exact H|].
  exact (read_input_file_no_extension (λ _, Ok users) (λ _, Ok users)
           "/data.d/.csv" (start []) H).
Defined.

(** ** More on the output file *)

(** X11. Whatever the input path, the default output name holds no path
    separator and ends in .sql, so the output path has [./storage] itself
    as its directory: the input path cannot steer the output to another
    directory. *)
Theorem output_stays_in_storage (input_file : string) :
  Py.has_char "/" (get_output_file_name input_file) = false
  ∧ (∃ root, get_output_file_name input_file = root +:+ ".sql")
  ∧ os_path.dirname
      (os_path.join "./storage" (get_output_file_name input_file))
    = "./storage".
Proof.
  pose proof (get_output_file_name_no_sep input_file) as Hname.
  split; [exact Hname|]. split; [by eexists|].
  rewrite join_storage by done. by apply dirname_storage.
Qed.

(** X12. When [./storage] exists as a regular file, the writer does not
    try to create the directory (the path exists) and the [open] of the
    output path fails with [NotADirectoryError]; the world is left as it
    was: nothing is written or printed. *)
Theorem write_queries_to_file_blocked (query name : string) (w : world) :
  Py.has_char "/" name = false →
  is_Some (files (fs w) !! "./storage") →
  "./storage" ∉ dirs (fs w) →
  "./storage/" +:+ name ∉ dirs (fs w) →
  write_queries_to_file query name w
  = (Raise (NotADirectoryError ("./storage/" +:+ name)), w).
Proof.
  intros Hname Hfile Hnodir Hfree. destruct w as [i out [d fl] o].
  cbn [fs files dirs] in *.
  unfold write_queries_to_file. rewrite join_storage by done.
  unfold bind at 1. cbn [fs]. unfold path_exists at 1. cbn [files dirs].
  rewrite (bool_decide_eq_true_2 _ Hfile), orb_true_r. cbn [negb].
  rewrite (bind_ok _ _ _ _ tt (eq_refl _)).
  apply bind_raise. unfold on_fs, write_file. cbn [fs files dirs].
  rewrite (bool_decide_eq_false_2 _ Hfree).
  rewrite dirname_storage by done.
  rewrite (bool_decide_eq_false_2 _ Hnodir).
  rewrite (bool_decide_eq_true_2 _ Hfile). reflexivity.
Qed.

Lemma write_queries_to_file_blocked_users :
  (Py.has_char "/" "users.sql" = false
   ∧ is_Some (files (mkFS ∅ {["./storage" := "notes"]}) !! "./storage")
   ∧ ("./storage" ∉ dirs (mkFS ∅ {["./storage" := "notes"]}))
   ∧ ("./storage/" +:+ "users.sql"
      ∉ dirs (mkFS ∅ {["./storage" := "notes"]})))
  ∧ write_queries_to_file "a;" "users.sql"
      (mkWorld [] [] (mkFS ∅ {["./storage" := "notes"]}) [])
    = (Raise (NotADirectoryError ("./storage/" +:+ "users.sql")),
       mkWorld [] [] (mkFS ∅ {["./storage" := "notes"]}) []).
Proof.
  assert (is_Some (files (mkFS ∅ {["./storage" := "notes"]}) !! "./storage"))
    as H1 by (exists "notes"; apply lookup_singleton_eq).
  assert ("./storage" ∉ dirs (mkFS ∅ {["./storage" := "notes"]})) as H2
    by apply not_elem_of_empty.
  assert ("./storage/" +:+ "users.sql"
          ∉ dirs (mkFS ∅ {["./storage" := "notes"]})) as H3
    by apply not_elem_of_empty.
  split; [by repeat split|].
  exact (write_queries_to_file_blocked "a;" "users.sql"
           (mkWorld [] [] (mkFS ∅ {["./storage" := "notes"]}) [])
           eq_refl H1 H2 H3).
Defined.

(** ** The column dict of CREATE TABLE *)

Lemma dict_set_keys (d : list (string * string)) (k v : string) :
  (∀ k', k' ∈ (Py.dict_set d k v).*1 ↔ k' = k ∨ k' ∈ d.*1)
  ∧ (NoDup d.*1 → NoDup (Py.dict_set d k v).*1).
Proof.
  induction d as [|[k0 v0] d [IHin IHnd]]; cbn [Py.dict_set].
  - split.
    + intros k'. cbn. rewrite list_elem_of_singleton, elem_of_nil. tauto.
    + intros _. apply NoDup_singleton.
  - destruct (decide (k0 = k)) as [->|Hne].
    + split; [|done]. intros k'. rewrite !fmap_cons. cbn [fst].
      rewrite !elem_of_cons. tauto.
    + split.
      * intros k'. rewrite !fmap_cons. cbn [fst].
        rewrite !elem_of_cons, IHin. tauto.
      * rewrite !fmap_cons. cbn [fst]. rewrite !NoDup_cons.
        intros [Hnotin Hnd]. split; [|by apply IHnd].
        rewrite IHin. intros [-> | Hin]; done.
Qed.

Lemma dict_set_entries (d : list (string * string)) (k v : string) :
  (k, v) ∈ Py.dict_set d k v
  ∧ ∀ k' v', k' ≠ k → (k', v') ∈ d → (k', v') ∈ Py.dict_set d k v.
Proof.
  induction d as [|[k0 v0] d [IHset IHkeep]]; cbn [Py.dict_set].
  - split; [apply list_elem_of_singleton; done|].
    intros k' v' _ Hin. by apply elem_of_nil in Hin.
  - destruct (decide (k0 = k)) as [->|Hne].
    + split; [by apply elem_of_cons; left|].
      intros k' v' Hk'. rewrite !elem_of_cons.
      intros [[= -> ->] | Hin]; [done|by right].
    + split; [by apply elem_of_cons; right|].
      intros k' v' Hk'. rewrite !elem_of_cons.
      intros [E | Hin]; [by left|right; by apply IHkeep].
Qed.

Lemma collected_snoc (cols : list (string * string))
  (entries : list column_entry) (e : column_entry) :
  collected cols (entries ++ [e])
  = Py.dict_set (collected cols entries) (entry_name e) (entry_value e).
Proof. unfold collected. by rewrite fold_left_app. Qed.

(** The folded dict holds every typed name once, and a name typed again
    carries the definition typed last. *)
Lemma collected_columns (entries : list column_entry) :
  NoDup (collected [] entries).*1
  ∧ (∀ k, k ∈ (collected [] entries).*1 ↔ k ∈ map entry_name entries)
  ∧ (∀ pre e post,
       entries = pre ++ e :: post →
       entry_name e ∉ map entry_name post →
       (entry_name e, entry_value e) ∈ collected [] entries).
Proof.
  induction entries as [|e0 entries (IHnd & IHkeys & IHlast)] using rev_ind.
  - split; [apply NoDup_nil_2|]. split.
    + intros k. cbn. by rewrite !elem_of_nil.
    + intros [|? ?] e post [=].
  - rewrite collected_snoc.
    destruct (dict_set_keys (collected [] entries) (entry_name e0)
                (entry_value e0)) as [Hin Hnd].
    destruct (dict_set_entries (collected [] entries) (entry_name e0)
                (entry_value e0)) as [Hset Hkeep].
    split; [by apply Hnd|]. split.
    + intros k. rewrite Hin, IHkeys, map_app, elem_of_app. cbn.
      rewrite list_elem_of_singleton. tauto.
    + intros pre e post Heq Hnotin.
      destruct post as [|e1 post _] using rev_ind.
      * apply app_inj_tail in Heq as [_ ->]. exact Hset.
      * rewrite app_comm_cons, app_assoc in Heq.
        apply app_inj_tail in Heq as [-> ->].
        rewrite map_app, elem_of_app in Hnotin. cbn in Hnotin.
        rewrite list_elem_of_singleton in Hnotin.
        apply Hkeep; [tauto|].
        apply (IHlast pre e post); [done|tauto].
Qed.

Lemma dict_set_keys_order (d : list (string * string)) (k v : string) :
  (Py.dict_set d k v).*1 = if decide (k ∈ d.*1) then d.*1 else d.*1 ++ [k].
Proof.
  induction d as [|[k0 v0] d IH]; cbn [Py.dict_set].
  - rewrite decide_False by apply not_elem_of_nil. done.
  - rewrite !fmap_cons. cbn [fst].
    destruct (decide (k0 = k)) as [->|Hne].
    + rewrite decide_True by (apply elem_of_cons; by left). done.
    + rewrite fmap_cons, IH. cbn [fst].
      destruct (decide (k ∈ d.*1)) as [Hin|Hnotin].
      * rewrite decide_True by (apply elem_of_cons; by right). done.
      * rewrite decide_False; [done|].
        rewrite elem_of_cons. intros [-> | Hin]; done.
Qed.

(** The keys of the folded dict are the typed names in the order of their
    first typing. *)
Lemma collected_keys (entries : list column_entry) :
  (collected [] entries).*1
  = reverse (remove_dups (reverse (map entry_name entries))).
Proof.
  induction entries as [|e entries IH] using rev_ind; [done|].
  rewrite collected_snoc, dict_set_keys_order, IH.
  rewrite map_app, reverse_app. cbn [map reverse app].
  change (reverse [entry_name e]) with [entry_name e].
  cbn [app remove_dups].
  destruct (decide_rel elem_of (entry_name e)
              (reverse (map entry_name entries))) as [Hin|Hnotin].
  - rewrite decide_True; [done|].
    by rewrite elem_of_reverse, elem_of_remove_dups.
  - rewrite decide_False; [by rewrite reverse_cons|].
    by rewrite elem_of_reverse, elem_of_remove_dups.
Qed.

Section CreateTable.

Variable realpath : string → string.
Variable read_csv read_excel : string → result DataFrame.

Local Abbreviation run := (main realpath read_csv read_excel).

(** X13. In a run of CREATE TABLE the loop over the typed columns builds
    a dict whose [repr] the statement carries: its keys are the typed
    column names, each once, in the order of their first typing, and a
    name typed again keeps its place and carries the definition typed
    last. *)
Theorem create_table_columns (tl : string) (entries : list column_entry)
  (d : string) (rest out : list string) (f : FS) (o : list string) :
  Py.strip tl ≠ "" →
  Forall (λ e, Py.lower (entry_name e) ≠ "done") entries →
  Py.lower d = "done" →
  ∃ cols out1 out2,
    ask_columns (mkWorld (flat_map entry_lines entries ++ d :: rest) out f o)
    = (Ok cols, mkWorld rest (out ++ out1) f o)
    ∧ run (mkWorld ("5" :: tl :: flat_map entry_lines entries ++ d :: rest)
             out f o)
      = (Ok tt,
         mkWorld rest
           (out2 ++ [announcement
                       (create_table_template (Py.strip tl)
                          (Py.repr_dict cols))]) f o)
    ∧ cols.*1 = reverse (remove_dups (reverse (map entry_name entries)))
    ∧ NoDup cols.*1
    ∧ (∀ pre e post,
         entries = pre ++ e :: post →
         entry_name e ∉ map entry_name post →
         (entry_name e, entry_value e) ∈ cols).
Proof.
  intros Htl Hentries Hd.
  destruct (columns_loop_entries entries d rest []
              (mkWorld (flat_map entry_lines entries ++ d :: rest) out f o)
              Hentries Hd) as [out1 H1].
  destruct (main_dispatch realpath read_csv read_excel "5" tl 5
              "create_table" (flat_map entry_lines entries ++ d :: rest)
              out f o) as [out0 H0]; [reflexivity|lia|reflexivity|done|].
  destruct (dispatch_create_table realpath read_csv read_excel (Py.strip tl)
              entries d rest out0 f o Hentries Hd) as [out2 H2].
  destruct (collected_columns entries) as (Hnd & _ & Hlast).
  exists (collected [] entries), out1, out2.
  split; [exact H1|]. split; [by rewrite H0|].
  split; [apply collected_keys|]. split; [exact Hnd|exact Hlast].
Qed.

End CreateTable.

Lemma create_table_columns_repeated :
  (Py.strip "t" ≠ ""
   ∧ Forall (λ e, Py.lower (entry_name e) ≠ "done")
       [mkEntry "id" "INT" "" ""; mkEntry "name" "TEXT" "" "";
        mkEntry "id" "BIGINT" "" "PRIMARY KEY"]
   ∧ Py.lower "done" = "done")
  ∧ ∃ cols out1 out2,
      ask_columns
        (mkWorld (flat_map entry_lines
                    [mkEntry "id" "INT" "" ""; mkEntry "name" "TEXT" "" "";
                     mkEntry "id" "BIGINT" "" "PRIMARY KEY"]
                  ++ "done" :: []) [] empty_fs [])
      = (Ok cols, mkWorld [] ([] ++ out1) empty_fs [])
      ∧ main id no_reader no_reader
          (mkWorld ("5" :: "t"
                    :: flat_map entry_lines
                         [mkEntry "id" "INT" "" ""; mkEntry "name" "TEXT" "" "";
                          mkEntry "id" "BIGINT" "" "PRIMARY KEY"]
                       ++ "done" :: []) [] empty_fs [])
        = (Ok tt,
           mkWorld []
             (out2 ++ [announcement
                         (create_table_template (Py.strip "t")
                            (Py.repr_dict cols))]) empty_fs [])
      ∧ cols.*1
        = reverse (remove_dups (reverse (map entry_name
            [mkEntry "id" "INT" "" ""; mkEntry "name" "TEXT" "" "";
             mkEntry "id" "BIGINT" "" "PRIMARY KEY"])))
      ∧ NoDup cols.*1
      ∧ (∀ pre e post,
           [mkEntry "id" "INT" "" ""; mkEntry "name" "TEXT" "" "";
            mkEntry "id" "BIGINT" "" "PRIMARY KEY"] = pre ++ e :: post →
           entry_name e ∉ map entry_name post →
           (entry_name e, entry_value e) ∈ cols).
Proof.
  assert (Py.strip "t" ≠ "") as H1 by (vm_compute; by intros [=]).
  assert (Forall (λ e, Py.lower (entry_name e) ≠ "done")
            [mkEntry "id" "INT" "" ""; mkEntry "name" "TEXT" "" "";
             mkEntry "id" "BIGINT" "" "PRIMARY KEY"]) as H2.
  { repeat constructor; vm_compute; by intros [=]. }
  split; [by repeat split|].
  exact (create_table_columns id no_reader no_reader "t"
           [mkEntry "id" "INT" "" ""; mkEntry "name" "TEXT" "" "";
            mkEntry "id" "BIGINT" "" "PRIMARY KEY"] "done" [] [] empty_fs []
           H1 H2 eq_refl).
Defined.

(** The repeated column keeps its first place and its last definition. *)
Example create_table_repeated_statement :
  printed (main id no_reader no_reader
             (start ["5"; "t"; "id"; "INT"; ""; ""; "name"; "TEXT"; ""; "";
                     "id"; "BIGINT"; ""; "PRIMARY KEY"; "done"]))
  = Some (announcement
            "CREATE TABLE t ({'id': 'BIGINT PRIMARY KEY ', 'name': 'TEXT  '});").
Proof. by vm_compute. Qed.
